(** * Oracle CDC bridge: a shallow embedding of the ingest, dispatch,
    assembly, alert and recommendation paths of the Python service
    (cdc_service.py, backfill_service.py, routes/alert_evaluator.py,
    routes/alerts.py, routes/ml_quality.py). *)

From Stdlib Require Import ZArith QArith Ascii String.
From stdpp Require Import base gmap strings list.

Open Scope Z_scope.
Set Warnings "-register-all".

(* ===================================================================== *)
(** ** JSON payloads as json.loads builds them *)
(* ===================================================================== *)

(** Python floats are modelled as exact rationals. *)
Inductive json : Type :=
| JNull
| JBool (b : bool)
| JInt (z : Z)
| JFloat (q : Q)
| JStr (s : string)
| JArr (l : list json)
| JObj (kv : list (string * json)).

(** A payload object: [json.loads] keeps the last binding of a repeated key. *)
Definition payload := list (string * json).

Fixpoint assoc_last (k : string) (kv : list (string * json)) : option json :=
  match kv with
  | [] => None
  | (k', v) :: t =>
      match assoc_last k t with
      | Some v' => Some v'
      | None => if String.eqb k k' then Some v else None
      end
  end.

(** [d.get(k)], [None] when the key is absent. *)
Definition dget (d : payload) (k : string) : option json := assoc_last k d.

(** [d.get(k, default)] *)
Definition dget_or (d : payload) (k : string) (dflt : json) : json :=
  match dget d k with Some v => v | None => dflt end.

(** Python truthiness. *)
Definition py_truthy (v : json) : bool :=
  match v with
  | JNull => false
  | JBool b => b
  | JInt z => negb (z =? 0)
  | JFloat q => negb (Qeq_bool q 0)
  | JStr s => negb (String.eqb s EmptyString)
  | JArr l => negb (bool_decide (l = []))
  | JObj kv => negb (bool_decide (kv = []))
  end.

(** [a or b] *)
Definition py_or (a b : json) : json := if py_truthy a then a else b.

(** [int(v)] on a non-string value: bools are 0/1, floats truncate toward
    zero, everything else raises ([None]). Strings never reach this
    function: the callers treat them first. *)
Definition py_int_num (v : json) : option Z :=
  match v with
  | JBool b => Some (if b then 1 else 0)
  | JInt z => Some z
  | JFloat q => Some (Z.quot (Qnum q) (Zpos (Qden q)))
  | _ => None
  end.

(** ** Characters and strings

    A Python [str] is held as its UTF-8 encoding. [str_lower] lowers the
    ASCII letters only: Python's Unicode-aware [str.lower] is a field of the
    environment below, and [str_lower] is what a concrete environment uses
    for ASCII text. [str_strip] removes the characters for which Python's
    [str.isspace] holds, all of them, in their UTF-8 encodings. *)

Definition ascii_lower (c : ascii) : ascii :=
  let n := nat_of_ascii c in
  if (Nat.leb 65 n && Nat.leb n 90)%bool then ascii_of_nat (n + 32) else c.

Fixpoint str_lower (s : string) : string :=
  match s with
  | EmptyString => EmptyString
  | String c s' => String (ascii_lower c) (str_lower s')
  end.

(** The whitespace of [str.isspace]: U+0009..U+000D and U+001C..U+0020 (one
    byte), U+0085 and U+00A0 (two bytes), U+1680, U+2000..U+200A, U+2028,
    U+2029, U+202F, U+205F and U+3000 (three bytes), as byte codes. *)
Definition py_space1 (c : nat) : bool :=
  (Nat.leb 9 c && Nat.leb c 13) || (Nat.leb 28 c && Nat.leb c 32).

Definition py_space2 (c1 c2 : nat) : bool :=
  Nat.eqb c1 194 && (Nat.eqb c2 133 || Nat.eqb c2 160).

Definition py_space3 (c1 c2 c3 : nat) : bool :=
  (Nat.eqb c1 225 && Nat.eqb c2 154 && Nat.eqb c3 128) ||
  (Nat.eqb c1 226 && Nat.eqb c2 128 &&
     ((Nat.leb 128 c3 && Nat.leb c3 138) || Nat.eqb c3 168 || Nat.eqb c3 169 ||
      Nat.eqb c3 175)) ||
  (Nat.eqb c1 226 && Nat.eqb c2 129 && Nat.eqb c3 159) ||
  (Nat.eqb c1 227 && Nat.eqb c2 128 && Nat.eqb c3 128).

(** Byte length of the whitespace character that starts [l] (0 if none). *)
Definition space_len_front (l : list ascii) : nat :=
  match map nat_of_ascii (firstn 3 l) with
  | c1 :: t =>
      if py_space1 c1 then 1 else
      match t with
      | c2 :: t2 =>
          if py_space2 c1 c2 then 2 else
          match t2 with
          | c3 :: _ => if py_space3 c1 c2 c3 then 3 else 0
          | [] => 0
          end
      | [] => 0
      end
  | [] => 0
  end%nat.

(** Byte length of the whitespace character that ends a string, given the
    string reversed. *)
Definition space_len_back (l : list ascii) : nat :=
  match map nat_of_ascii (firstn 3 l) with
  | c3 :: t =>
      if py_space1 c3 then 1 else
      match t with
      | c2 :: t2 =>
          if py_space2 c2 c3 then 2 else
          match t2 with
          | c1 :: _ => if py_space3 c1 c2 c3 then 3 else 0
          | [] => 0
          end
      | [] => 0
      end
  | [] => 0
  end%nat.

(** Drop whitespace characters from the front of [l], measured by [len];
    every step drops at least one byte, so [length l] steps suffice. *)
Fixpoint drop_spaces_fuel (fuel : nat) (len : list ascii -> nat) (l : list ascii)
    : list ascii :=
  match fuel with
  | O => l
  | S f => match len l with
           | O => l
           | k => drop_spaces_fuel f len (skipn k l)
           end
  end.

Definition drop_spaces (len : list ascii -> nat) (l : list ascii) : list ascii :=
  drop_spaces_fuel (length l) len l.

(** [s.strip()] *)
Definition str_strip (s : string) : string :=
  string_of_list_ascii
    (rev (drop_spaces space_len_back
            (rev (drop_spaces space_len_front (list_ascii_of_string s))))).

(** [s[:n]] *)
Definition str_prefix (n : nat) (s : string) : string := substring 0 n s.

Fixpoint str_join (sep : string) (l : list string) : string :=
  match l with
  | [] => EmptyString
  | [x] => x
  | x :: t => x +:+ sep +:+ str_join sep t
  end.

Definition str_of_codes (l : list nat) : string :=
  string_of_list_ascii (map ascii_of_nat l).

(* ===================================================================== *)
(** ** The Python builtins and the database behaviour the code relies on *)
(* ===================================================================== *)

(** The row types of the destination tables written by [write_ml_result]
    and of the bookkeeping tables of the dispatcher. *)
Record dicta_row := mkDictaRow {
  dc_call_id : string;
  dc_customer_id : json;
  dc_subscriber_no : json;
  dc_call_time : json;
  dc_summary : string;
  dc_sentiment : Z;
  dc_classification : string;
  dc_all_classifications : string;
  dc_confidence : Q;
  dc_processing_time : Z;
  dc_model_version : string;
  dc_processed_at : Z  (* SYSTIMESTAMP *)
}.

Record conv_summary_row := mkSummaryRow {
  cs_source_type : string;
  cs_source_id : string;
  cs_creation_date : Z;  (* SYSDATE *)
  cs_summary : string;
  cs_satisfaction : json;
  cs_sentiment : json;
  cs_products : string;
  cs_unresolved_issues : string;
  cs_action_items : string;
  cs_ban : json;
  cs_subscriber_no : json;
  cs_conversation_time : json;
  cs_churn_score : Q
}.

Record conv_category_row := mkCategoryRow {
  cc_source_id : string;
  cc_source_type : string;
  cc_creation_date : Z;  (* SYSDATE *)
  cc_category_code : string
}.

Record processed_row := mkProcessedRow {
  pc_call_id : string;
  pc_sqs_message_id : string
}.

Record error_row := mkErrorRow {
  el_call_id : string;
  el_error_message : string;
  el_error_type : string
}.

(** What the code takes from its surroundings: [repr()] of a value (for a
    value other than a string it is also its [str()]), [float()]/[int()]
    of a string, Python's Unicode-aware [str.lower], the list-cleaning helpers
    [clean_json_to_csv] and [extract_action_items_text] (pure functions of
    the payload), the source-table lookup of [write_ml_result] (by clock,
    catalog entry and id), and whether Oracle accepts an INSERT of a row
    (column types, TO_TIMESTAMP formats, constraints). *)
Record Env := mkEnv {
  py_repr : json -> string;
  py_float_str : string -> option Q;
  py_int_str : string -> option Z;
  clean_json_to_csv : json -> string;
  extract_action_items_text : json -> nat -> string;
  source_row : Z -> string -> string -> option (json * json * json);
  accepts_dicta : dicta_row -> bool;
  accepts_summary : conv_summary_row -> bool;
  accepts_category : conv_category_row -> bool;
  py_lower : string -> string
}.

Section Builtins.
Variable E : Env.

(** [str(v)] *)
Definition py_str (v : json) : string :=
  match v with JStr s => s | _ => py_repr E v end.

(** [float(v)] *)
Definition py_float (v : json) : option Q :=
  match v with
  | JBool b => Some (if b then 1%Q else 0%Q)
  | JInt z => Some (inject_Z z)
  | JFloat q => Some q
  | JStr s => py_float_str E s
  | _ => None
  end.

(** [int(v)] *)
Definition py_int (v : json) : option Z :=
  match v with JStr s => py_int_str E s | _ => py_int_num v end.

End Builtins.

(* ===================================================================== *)
(** ** Normalisation of an analytics result (write_ml_result, part 1) *)
(* ===================================================================== *)

(** The non-English keys of [sentiment_map] are stored in cdc_service.py as
    the byte sequences below (each letter is preceded by U+25CA). *)
Definition lozenge : list nat := [226; 151; 138]%nat.

Definition key_positive_he : string := str_of_codes
  (lozenge ++ [195; 179] ++ lozenge ++ [195; 180] ++ lozenge ++ [195; 175]
   ++ lozenge ++ [195; 171] ++ lozenge ++ [195; 180])%nat.
Definition key_negative_he : string := str_of_codes
  (lozenge ++ [194; 169] ++ lozenge ++ [195; 186] ++ lozenge ++ [195; 180]
   ++ lozenge ++ [195; 186] ++ lozenge ++ [195; 180])%nat.
Definition key_neutral_he : string := str_of_codes
  (lozenge ++ [226; 128; 160] ++ lozenge ++ [195; 180] ++ lozenge ++ [195; 180]
   ++ lozenge ++ [195; 178] ++ lozenge ++ [194; 174] ++ lozenge ++ [195; 186]
   ++ lozenge ++ [195; 180])%nat.
Definition key_mixed_he : string := str_of_codes
  (lozenge ++ [195; 187] ++ lozenge ++ [194; 162] ++ lozenge ++ [195; 175]
   ++ lozenge ++ [194; 174] ++ lozenge ++ [195; 171])%nat.

Definition sentiment_map : list (string * Z) :=
  [(key_positive_he, 4); ("positive", 4); (key_negative_he, 2); ("negative", 2);
   (key_neutral_he, 3); ("neutral", 3); (key_mixed_he, 3); ("mixed", 3);
   ("unknown", 3)].

(** [sentiment_map.get(s, 3)] *)
Definition sentiment_map_get (s : string) : Z :=
  match find (fun p => String.eqb p.1 s) sentiment_map with
  | Some p => p.2
  | None => 3
  end.

(** [sentiment_raw]: [result.get('sentiment', {})], then [.get('overall', 3)]
    on a dict, else the value itself when truthy, else 3. *)
Definition sentiment_raw_of (r : payload) : json :=
  match dget_or r "sentiment" (JObj []) with
  | JObj kv => match assoc_last "overall" kv with Some v => v | None => JInt 3 end
  | v => if py_truthy v then v else JInt 3
  end.

(** [sentiment]: strings through the map after [.lower().strip()], other
    values through [int()] when truthy (3 otherwise); [None] is a raise. *)
Definition sentiment_of_raw (E : Env) (raw : json) : option Z :=
  match raw with
  | JStr s => Some (sentiment_map_get (str_strip (py_lower E s)))
  | v => if py_truthy v then py_int_num v else Some 3
  end.

Definition sentiment_of (E : Env) (r : payload) : option Z :=
  sentiment_of_raw E (sentiment_raw_of r).

(** [churn_score = result.get('churn_confidence', 0.0) * 100]; the value is
    then printed with the format [.3f], which raises for anything that is
    not an int, float or bool. *)
Definition churn_score_of (r : payload) : option Q :=
  match dget_or r "churn_confidence" (JFloat 0) with
  | JInt z => Some (inject_Z z * 100)%Q
  | JFloat q => Some (q * 100)%Q
  | JBool b => Some (if b then 100 else 0)%Q
  | _ => None
  end.

(** [self.pending_source_types.pop(str(call_id), 'CALL')] *)
Definition pop_source_type (key : string) (m : gmap string string)
    : string * gmap string string :=
  (match m !! key with Some t => t | None => "CALL" end, delete key m).

Fixpoint json_strings (l : list json) : option (list string) :=
  match l with
  | [] => Some []
  | JStr s :: t => match json_strings t with Some ss => Some (s :: ss) | None => None end
  | _ :: _ => None
  end.

(** Python [==] on hashable values: numbers (bools included) by value,
    strings by content. *)
Definition py_num (v : json) : option Q :=
  match v with
  | JBool b => Some (if b then 1 else 0)%Q
  | JInt z => Some (inject_Z z)
  | JFloat q => Some q
  | _ => None
  end.

Definition py_eqb (a b : json) : bool :=
  match a, b with
  | JStr s, JStr t => String.eqb s t
  | JNull, JNull => true
  | _, _ => match py_num a, py_num b with
            | Some x, Some y => Qeq_bool x y
            | _, _ => false
            end
  end.

Definition py_unhashable (v : json) : bool :=
  match v with JArr _ | JObj _ => true | _ => false end.

(** [list(set(l))]; the iteration order of a set is modelled as the order of
    first occurrence (the relational tables it feeds are unordered). *)
Fixpoint py_set_list (seen : list json) (l : list json) : list json :=
  match l with
  | [] => []
  | x :: t =>
      if existsb (py_eqb x) seen then py_set_list seen t
      else x :: py_set_list (x :: seen) t
  end.

Fixpoint dict_keys (seen : list string) (kv : list (string * json)) : list json :=
  match kv with
  | [] => []
  | (k, _) :: t =>
      if existsb (String.eqb k) seen then dict_keys seen t
      else JStr k :: dict_keys (k :: seen) t
  end.

(** [for c in v]: lists yield their items, dicts their keys, strings their
    characters, numbers raise. *)
Definition py_iter (v : json) : option (list json) :=
  match v with
  | JArr l => Some l
  | JObj kv => Some (dict_keys [] kv)
  | JStr s => Some (map (fun c => JStr (String c EmptyString)) (list_ascii_of_string s))
  | _ => None
  end.

(** The destination database (the rows the code reads and writes). *)
Record db := mkDb {
  dicta_call_summary : list dicta_row;
  conversation_summary : list conv_summary_row;
  conversation_category : list conv_category_row;
  cdc_processed_calls : list processed_row;
  error_log : list error_row
}.

Definition set_dicta (d : db) (l : list dicta_row) : db :=
  mkDb l (conversation_summary d) (conversation_category d) (cdc_processed_calls d) (error_log d).
Definition set_summary (d : db) (l : list conv_summary_row) : db :=
  mkDb (dicta_call_summary d) l (conversation_category d) (cdc_processed_calls d) (error_log d).
Definition set_category (d : db) (l : list conv_category_row) : db :=
  mkDb (dicta_call_summary d) (conversation_summary d) l (cdc_processed_calls d) (error_log d).
Definition set_processed (d : db) (l : list processed_row) : db :=
  mkDb (dicta_call_summary d) (conversation_summary d) (conversation_category d) l (error_log d).
Definition set_error_log (d : db) (l : list error_row) : db :=
  mkDb (dicta_call_summary d) (conversation_summary d) (conversation_category d) (cdc_processed_calls d) l.

(** The values computed before the first write ([insert_params] and the
    Python variable [classification]). *)
Record prepared := mkPrepared {
  pr_classification : json;
  pr_customer_id : json;
  pr_subscriber_no : json;
  pr_call_time : json;
  pr_summary : string;
  pr_sentiment : Z;
  pr_classification_param : string;
  pr_all_classifications : string;
  pr_confidence : Q;
  pr_processing_time : Z;
  pr_model_version : string
}.

Section WriteMlResult.
Variable E : Env.

(** [classification, all_classifications]: [classification.primary] when
    truthy, else the first of [classifications], else [str(classification)]
    or ['unknown']. *)
Definition classification_pick (r : payload) : option (json * json) :=
  let cd := dget_or r "classification" (JObj []) in
  let cl := dget_or r "classifications" (JArr []) in
  let fallback :=
    if py_truthy cl then
      match cl with
      | JArr (x :: _) => Some (x, cl)
      | JStr (String c _) => Some (JStr (String c EmptyString), cl)
      | _ => None  (* len() of a number or [0] of a dict raises *)
      end
    else Some (if py_truthy cd then JStr (py_str E cd) else JStr "unknown", JArr []) in
  match cd with
  | JObj kv =>
      match assoc_last "primary" kv with
      | Some p =>
          if py_truthy p
          then Some (p, match assoc_last "all" kv with Some a => a | None => JArr [] end)
          else fallback
      | None => fallback
      end
  | _ => fallback
  end.

(** [classification[:100] if classification else 'unknown']; slicing a
    number or binding a list raises. *)
Definition classification_param (c : json) : option string :=
  if py_truthy c then match c with JStr s => Some (str_prefix 100 s) | _ => None end
  else Some "unknown".

(** [', '.join(a) if isinstance(a, list) else str(a)] *)
Definition all_classifications_param (a : json) : option string :=
  match a with
  | JArr l => match json_strings l with Some ss => Some (str_join ", " ss) | None => None end
  | _ => Some (py_str E a)
  end.

(** [summary_text] *)
Definition summary_text_of (r : payload) : json :=
  match dget_or r "summary" (JStr EmptyString) with
  | JObj kv => match assoc_last "text" kv with Some t => t | None => JStr EmptyString end
  | v => JStr (if py_truthy v then py_str E v else EmptyString)
  end.

(** [summary_text[:4000] if summary_text else ''] *)
Definition summary_param (t : json) : option string :=
  if py_truthy t then match t with JStr s => Some (str_prefix 4000 s) | _ => None end
  else Some EmptyString.

(** [float(result.get('confidence', 0.0)) if result.get('confidence') is not None else 0.0] *)
Definition confidence_param (r : payload) : option Q :=
  match dget r "confidence" with
  | None | Some JNull => Some 0%Q
  | Some v => py_float E v
  end.

Definition prepare (r : payload) : option prepared :=
  match sentiment_of E r, classification_pick r with
  | Some sentiment, Some (cls, allc) =>
      match summary_param (summary_text_of r), classification_param cls,
            all_classifications_param allc, confidence_param r,
            py_int E (dget_or r "processingTime" (JInt 0)) with
      | Some summary, Some cparam, Some allp, Some conf, Some pt =>
          Some (mkPrepared cls
                  (py_or (dget_or r "ban" JNull) (dget_or r "customerId" JNull))
                  (py_or (dget_or r "subscriberNo" JNull) (dget_or r "subscriber_no" JNull))
                  (py_or (dget_or r "callTime" JNull) (dget_or r "call_time" JNull))
                  summary sentiment cparam allp conf pt
                  (str_prefix 50 (py_str E (dget_or r "modelVersion" (JStr "dictalm-2.0")))))
      | _, _, _, _, _ => None
      end
  | _, _ => None
  end.

Definition dicta_row_of (key : string) (now : Z) (p : prepared) : dicta_row :=
  mkDictaRow key (pr_customer_id p) (pr_subscriber_no p) (pr_call_time p)
    (pr_summary p) (pr_sentiment p) (pr_classification_param p)
    (pr_all_classifications p) (pr_confidence p) (pr_processing_time p)
    (pr_model_version p) now.

(** [sentiment_value] of CONVERSATION_SUMMARY: the raw label. *)
Definition sentiment_value_of (r : payload) : json :=
  match dget_or r "sentiment" (JObj []) with
  | JObj kv => match assoc_last "overall" kv with Some v => v | None => JStr "neutral" end
  | v => JStr (if py_truthy v then py_str E v else "neutral")
  end.

(** The catalog entry whose table is queried for BAN, SUBSCRIBER_NO and the
    conversation time: [sf_oc] for ['WAPP'], VERINT otherwise. *)
Definition lookup_table_for (source_type : string) : string :=
  if String.eqb source_type "WAPP" then "sf_oc" else "verint".

Definition summary_row_of (now : Z) (source_type key : string) (r : payload)
    (p : prepared) : option conv_summary_row :=
  match churn_score_of r with
  | None => None
  | Some churn =>
      let '(ban, sub, ctime) :=
        match source_row E now (lookup_table_for source_type) key with
        | Some x => x
        | None => (JNull, JNull, JNull)
        end in
      Some (mkSummaryRow source_type key now (pr_summary p)
              (dget_or r "customer_satisfaction" (JInt 3)) (sentiment_value_of r)
              (clean_json_to_csv E (dget_or r "products" (JStr EmptyString)))
              (clean_json_to_csv E (dget_or r "unresolved_issues" (JStr EmptyString)))
              (extract_action_items_text E (dget_or r "action_items" (JStr EmptyString)) 500)
              ban sub ctime churn)
  end.

(** [all_classifications] of CONVERSATION_CATEGORY, before filtering:
    [classifications], else [classification.all], else [[classification]]. *)
Definition category_source (r : payload) (cls : json) : json :=
  let a0 := dget_or r "classifications" (JArr []) in
  let a1 :=
    if py_truthy a0 then a0
    else match dget_or r "classification" (JObj []) with
         | JObj kv => match assoc_last "all" kv with Some a => a | None => JArr [] end
         | _ => a0
         end in
  let a2 := if py_truthy a1 then a1 else (if py_truthy cls then JArr [cls] else JArr []) in
  match a2 with JStr s => JArr [JStr s] | _ => a2 end.

(** [list(set([c for c in all_classifications if c and str(c).strip()]))] *)
Definition category_values (r : payload) (cls : json) : option (list json) :=
  match py_iter (category_source r cls) with
  | None => None
  | Some l =>
      let kept := List.filter (fun c => py_truthy c &&
                                   negb (String.eqb (str_strip (py_str E c)) EmptyString)) l in
      if existsb py_unhashable kept then None else Some (py_set_list [] kept)
  end.

Definition category_row_of (source_type key : string) (now : Z) (c : json) : conv_category_row :=
  mkCategoryRow key source_type now (str_prefix 255 (py_str E c)).

Definition not_key_summary (source_type key : string) (x : conv_summary_row) : bool :=
  negb (String.eqb (cs_source_id x) key && String.eqb (cs_source_type x) source_type).
Definition not_key_category (source_type key : string) (x : conv_category_row) : bool :=
  negb (String.eqb (cc_source_id x) key && String.eqb (cc_source_type x) source_type).

(** The three writes of [write_ml_result] after the source type is known.
    Each is a DELETE then INSERT committed as one local transaction; an
    exception rolls back the current transaction only. *)
Definition write_result_rows (now : Z) (source_type key : string) (r : payload)
    (d : db) : db * bool :=
  match prepare r with
  | None => (d, false)
  | Some p =>
      let drow := dicta_row_of key now p in
      if negb (accepts_dicta E drow) then (d, false) else
      let d1 := set_dicta d
                  (List.filter (fun x => negb (String.eqb (dc_call_id x) key)) (dicta_call_summary d)
                   ++ [drow]) in
      match summary_row_of now source_type key r p with
      | None => (d1, false)
      | Some srow =>
          if negb (accepts_summary E srow) then (d1, false) else
          let d2 := set_summary d1
                      (List.filter (not_key_summary source_type key) (conversation_summary d1)
                       ++ [srow]) in
          match category_values r (pr_classification p) with
          | None => (d2, false)
          | Some cs =>
              let rows := map (category_row_of source_type key now) cs in
              if forallb (accepts_category E) rows
              then (set_category d2
                      (List.filter (not_key_category source_type key) (conversation_category d2)
                       ++ rows), true)
              else (d2, false)
          end
      end
  end.

End WriteMlResult.

(** The in-process state of [OracleCDCService] that the claims touch. *)
Record service := mkService {
  pending_source_types : gmap string string;
  oracle : db
}.

(** [call_id = result.get('callId', 'UNKNOWN')] *)
Definition call_id_of (r : payload) : json := dget_or r "callId" (JStr "UNKNOWN").

(** [OracleCDCService.write_ml_result] *)
Definition write_ml_result (E : Env) (now : Z) (st : service) (r : payload)
    : service * bool :=
  let key := py_str E (call_id_of r) in
  let '(source_type, pending') := pop_source_type key (pending_source_types st) in
  let '(d', ok) := write_result_rows E now source_type key r (oracle st) in
  (mkService pending' d', ok).

(* ===================================================================== *)
(** ** Source catalog and conversation assembly *)
(* ===================================================================== *)

(** An entry of [TABLE_SOURCES] (config.py). *)
Record table_source := mkTableSource {
  table_name : string;
  id_column : string;
  text_time_column : string;
  valid_channels : list string;
  required_channels : option (list string);
  base_filter : string;
  min_segments : nat;
  enabled : bool;
  dest_source_type : string
}.

Definition TABLE_SOURCES : list (string * table_source) :=
  [("verint", mkTableSource "VERINT_TEXT_ANALYSIS" "CALL_ID" "CALL_TIME"
                ["A"; "C"] (Some ["A"; "C"]) EmptyString 11 true "CALL");
   ("sf_oc", mkTableSource "SF_OC_TEXT_ANALYSIS_TEMP" "CASE_ID" "MESSAGE_DATE"
                ["A"; "B"; "C"] (Some ["C"])
                "channel_code <> 2 AND last_run_date > trunc(sysdate) AND CHANNEL_DESC = 'WhatsApp' AND TEXT IS NOT NULL"
                5 true "WAPP")].

(** [TABLE_SOURCES[source_id]] ([None] is a KeyError). *)
Definition source_of (source_id : string) : option table_source :=
  match find (fun p => String.eqb p.1 source_id) TABLE_SOURCES with
  | Some p => Some p.2
  | None => None
  end.

(** One fetched row: id, BAN, SUBSCRIBER_NO, OWNER, text time, TEXT prefix. *)
Record fragment := mkFragment {
  fr_id : string;
  fr_ban : json;
  fr_subscriber_no : json;
  fr_owner : option string;
  fr_time : option Z;
  fr_text : option string
}.

Record message := mkMessage {
  msg_channel : option string;
  msg_text : string;
  msg_timestamp : option Z
}.

Record conversation := mkConversation {
  cv_type : string;
  cv_call_id : string;
  cv_ban : json;
  cv_subscriber_no : json;
  cv_call_time : option Z;
  cv_messages : list message;
  cv_message_count : nat;
  cv_assembled_at : Z;
  cv_source : string;
  cv_source_id : option string
}.

(** A Python value that is a non-empty string. *)
Definition truthy_str (o : option string) : bool :=
  match o with Some s => negb (String.eqb s EmptyString) | None => false end.

(** [set(row[OWNER] for row in rows if row[OWNER])], as a list. *)
Definition observed_channels (rows : list fragment) : list string :=
  flat_map (fun f => match fr_owner f with
                     | Some s => if String.eqb s EmptyString then [] else [s]
                     | None => [] end) rows.

Definition subset_of (req obs : list string) : bool :=
  forallb (fun c => existsb (String.eqb c) obs) req.

(** [text_content and str(text_content).strip()] *)
Definition has_text (f : fragment) : bool :=
  match fr_text f with
  | Some t => negb (String.eqb t EmptyString) && negb (String.eqb (str_strip t) EmptyString)
  | None => false
  end.

(** [OracleCDCService.assemble_conversation_for_source], given the rows
    returned by its query (in text-time order). *)
Definition assemble_conversation_for_source (now : Z) (record_id source_id : string)
    (rows : list fragment) : option conversation :=
  match source_of source_id with
  | None => None
  | Some source =>
      match rows with
      | [] => None
      | first :: _ =>
          if Nat.ltb (length rows) (min_segments source) then None else
          let channels := observed_channels rows in
          let required := match required_channels source with
                          | Some r => r | None => valid_channels source end in
          if negb (subset_of required channels) then None else
          let messages := map (fun f => mkMessage (fr_owner f)
                                         (match fr_text f with Some t => t | None => EmptyString end)
                                         (fr_time f))
                              (List.filter has_text rows) in
          Some (mkConversation "CONVERSATION_ASSEMBLY" record_id (fr_ban first)
                  (fr_subscriber_no first) (fr_time first) messages (length messages)
                  now "on-premises-cdc" (Some source_id))
      end
  end.

(** [BackfillService.assemble_conversation] (channels A and C are required,
    [self.min_segments = 16]). *)
Definition backfill_min_segments : nat := 16.

Definition backfill_assemble_conversation (now : Z) (call_id : string)
    (rows : list fragment) : option conversation :=
  if Nat.ltb (length rows) backfill_min_segments then None else
  let channels := observed_channels rows in
  if negb (existsb (String.eqb "A") channels && existsb (String.eqb "C") channels)
  then None else
  let messages := map (fun f => mkMessage (fr_owner f)
                                 (match fr_text f with Some t => str_strip t | None => EmptyString end)
                                 (fr_time f))
                      (List.filter has_text rows) in
  match messages, rows with
  | [], _ => None
  | _, [] => None
  | _, first :: _ =>
      Some (mkConversation "CONVERSATION_ASSEMBLY" call_id (fr_ban first)
              (fr_subscriber_no first) (fr_time first) messages (length messages)
              now "backfill-service" None)
  end.

(* ===================================================================== *)
(** ** Outbound dispatch *)
(* ===================================================================== *)

(** Outcome of [self.sqs_client.send_message]. *)
Inductive send_outcome :=
| SendOk (message_id : string)
| SendRaises (err : string).

(** [log_error]: one INSERT into ERROR_LOG; a failure is logged and
    swallowed ([log_ok = false]). *)
Definition log_error (log_ok : bool) (call_id err kind : string) (d : db) : db :=
  if log_ok then set_error_log d (error_log d ++ [mkErrorRow call_id err kind]) else d.

(** How the database calls of a marking go: [self.oracle_conn.cursor()],
    which runs before the [try], raises; or the cursor is opened, the
    queries in the [try] (SELECT COUNT, INSERT, commit) all succeed or one
    of them raises ([queries_ok]), which is logged and swallowed, and the
    [cursor.close()] of the [finally] returns or raises ([close_raises]). *)
Inductive mark_outcome :=
| MarkCursorRaises (err : string)
| MarkRuns (queries_ok : bool) (close_raises : option string).

(** Whether the marking reaches its INSERT and commit. *)
Definition mark_inserts (m : mark_outcome) : bool :=
  match m with MarkRuns q _ => q | MarkCursorRaises _ => false end.

(** The CDC_PROCESSED_CALLS update of a marking: insert unless already
    present, when the queries succeed. *)
Definition mark_rows (m : mark_outcome) (call_id message_id : string) (d : db) : db :=
  if existsb (fun x => String.eqb (pc_call_id x) call_id) (cdc_processed_calls d) then d
  else if mark_inserts m
  then set_processed d (cdc_processed_calls d ++ [mkProcessedRow call_id message_id])
  else d.

(** The exception a marking lets out, if any. *)
Definition mark_raises (m : mark_outcome) : option string :=
  match m with MarkCursorRaises err => Some err | MarkRuns _ c => c end.

(** [mark_call_processed_for_source]: the database after the call and the
    exception it propagates ([TABLE_SOURCES[source_id]] succeeds here, its
    caller having looked the source up already). *)
Definition mark_call_processed_for_source (m : mark_outcome) (call_id message_id : string)
    (d : db) : db * option string :=
  (mark_rows m call_id message_id d, mark_raises m).

(** [OracleCDCService.send_to_sqs_for_source]. The [except] catches what the
    send, the [TABLE_SOURCES] lookup and the marking raise; [str()] of the
    KeyError of an unknown source is the [repr()] of the key. *)
Definition send_to_sqs_for_source (E : Env) (sent : send_outcome) (mark : mark_outcome)
    (log_ok : bool) (conv : conversation) (source_id : string) (st : service)
    : service * option string :=
  let call_id := cv_call_id conv in
  match sent with
  | SendRaises err =>
      (mkService (pending_source_types st)
                 (log_error log_ok call_id err "SQS_SEND_FAILED" (oracle st)), None)
  | SendOk message_id =>
      match source_of source_id with
      | None =>
          (mkService (pending_source_types st)
                     (log_error log_ok call_id (py_repr E (JStr source_id)) "SQS_SEND_FAILED"
                        (oracle st)), None)
      | Some source =>
          let pending' := <[call_id := dest_source_type source]> (pending_source_types st) in
          let '(d', exn) := mark_call_processed_for_source mark call_id message_id (oracle st) in
          match exn with
          | None => (mkService pending' d', Some message_id)
          | Some err => (mkService pending' (log_error log_ok call_id err "SQS_SEND_FAILED" d'), None)
          end
      end
  end.

(* ===================================================================== *)
(** ** Alert history (routes/alert_evaluator.py, routes/alerts.py) *)
(* ===================================================================== *)

Inductive alert_status := ACTIVE | ACKNOWLEDGED | RESOLVED.

Definition alert_status_eqb (a b : alert_status) : bool :=
  match a, b with
  | ACTIVE, ACTIVE | ACKNOWLEDGED, ACKNOWLEDGED | RESOLVED, RESOLVED => true
  | _, _ => false
  end.

Record alert_history := mkAlertHistory {
  h_history_id : nat;
  h_alert_id : string;
  h_triggered_at : Z;
  h_metric_value : Q;
  h_threshold_value : Q;
  h_severity : string;
  h_status : alert_status;
  h_affected_count : nat;
  h_affected_subscribers : list json;
  h_acknowledged_by : option string;
  h_acknowledged_at : option Z;
  h_resolved_by : option string;
  h_resolved_at : option Z;
  h_resolution_notes : option string
}.

Record alert_config := mkAlertConfig {
  alert_id : string;
  alert_name : string;
  condition_operator : string;
  threshold_value : Q;
  severity : string
}.

(** [a < b] on rationals. *)
Definition q_ltb (a b : Q) : bool := negb (Qle_bool b a).

(** [check_condition(value, operator, threshold)] *)
Definition check_condition (value : option Q) (operator : string) (threshold : Q) : bool :=
  match value with
  | None => false
  | Some v =>
      if String.eqb operator "gt" then q_ltb threshold v
      else if String.eqb operator "gte" then Qle_bool threshold v
      else if String.eqb operator "lt" then q_ltb v threshold
      else if String.eqb operator "lte" then Qle_bool v threshold
      else if String.eqb operator "eq" then Qeq_bool v threshold
      else false
  end.

(** One configuration as the evaluator sees it in a run: the metric value
    and affected subscribers of [evaluate_metric], whether the query that
    counts ACTIVE rows succeeded (on an error [execute_query] returns [[]],
    [execute_single] returns [{}] and [.get('count', 0)] reads 0), and
    whether the INSERT succeeded. *)
Record alert_eval_input := mkAlertEvalInput {
  ai_config : alert_config;
  ai_value : option Q;
  ai_subscribers : list json;
  ai_count_query_ok : bool;
  ai_insert_ok : bool
}.

Definition count_active (aid : string) (hist : list alert_history) : nat :=
  length (List.filter (fun h => String.eqb (h_alert_id h) aid && alert_status_eqb (h_status h) ACTIVE) hist).

(** Modelled from the spec: the ALERT_HISTORY table definition (column
    defaults for HISTORY_ID, TRIGGERED_AT and STATUS) is not in the
    sources; the INSERT of [evaluate_all_alerts] sets none of them and
    section 4.8 of the spec says that a created row is [ACTIVE]. *)
Definition new_alert_row (now : Z) (hid : nat) (cfg : alert_config) (value : Q)
    (subs : list json) : alert_history :=
  mkAlertHistory hid (alert_id cfg) now value (threshold_value cfg) (severity cfg)
    ACTIVE (length subs) subs None None None None None.

(** The body of the loop of [evaluate_all_alerts] for one configuration. *)
Definition evaluate_alert (now : Z) (hist : list alert_history) (inp : alert_eval_input)
    : list alert_history :=
  let cfg := ai_config inp in
  if check_condition (ai_value inp) (condition_operator cfg) (threshold_value cfg) then
    let existing := if ai_count_query_ok inp then count_active (alert_id cfg) hist else 0%nat in
    if Nat.eqb existing 0 then
      if ai_insert_ok inp then
        match ai_value inp with
        | Some v => hist ++ [new_alert_row now (length hist) cfg v (ai_subscribers inp)]
        | None => hist
        end
      else hist
    else hist
  else hist.

(** [evaluate_all_alerts] *)
Definition evaluate_all_alerts (now : Z) (inputs : list alert_eval_input)
    (hist : list alert_history) : list alert_history :=
  fold_left (evaluate_alert now) inputs hist.

(** [acknowledge_alert]: UPDATE ... WHERE HISTORY_ID = :id AND STATUS = 'ACTIVE' *)
Definition acknowledge_alert (now : Z) (history_id : nat) (acknowledged_by : string)
    (hist : list alert_history) : list alert_history :=
  map (fun h =>
         if Nat.eqb (h_history_id h) history_id && alert_status_eqb (h_status h) ACTIVE
         then mkAlertHistory (h_history_id h) (h_alert_id h) (h_triggered_at h)
                (h_metric_value h) (h_threshold_value h) (h_severity h) ACKNOWLEDGED
                (h_affected_count h) (h_affected_subscribers h)
                (Some acknowledged_by) (Some now)
                (h_resolved_by h) (h_resolved_at h) (h_resolution_notes h)
         else h) hist.

(** [resolve_alert]: UPDATE ... WHERE HISTORY_ID = :id AND STATUS IN ('ACTIVE', 'ACKNOWLEDGED') *)
Definition resolve_alert (now : Z) (history_id : nat) (resolved_by notes : string)
    (hist : list alert_history) : list alert_history :=
  map (fun h =>
         if Nat.eqb (h_history_id h) history_id
            && (alert_status_eqb (h_status h) ACTIVE || alert_status_eqb (h_status h) ACKNOWLEDGED)
         then mkAlertHistory (h_history_id h) (h_alert_id h) (h_triggered_at h)
                (h_metric_value h) (h_threshold_value h) (h_severity h) RESOLVED
                (h_affected_count h) (h_affected_subscribers h)
                (h_acknowledged_by h) (h_acknowledged_at h)
                (Some resolved_by) (Some now) (Some notes)
         else h) hist.

Inductive alert_op :=
| OpEvaluate (now : Z) (inputs : list alert_eval_input)
| OpAcknowledge (now : Z) (history_id : nat) (by_ : string)
| OpResolve (now : Z) (history_id : nat) (by_ notes : string).

Definition alert_step (hist : list alert_history) (op : alert_op) : list alert_history :=
  match op with
  | OpEvaluate now inputs => evaluate_all_alerts now inputs hist
  | OpAcknowledge now hid by_ => acknowledge_alert now hid by_ hist
  | OpResolve now hid by_ notes => resolve_alert now hid by_ notes hist
  end.

Definition alert_run (hist : list alert_history) (ops : list alert_op) : list alert_history :=
  fold_left alert_step ops hist.

(* ===================================================================== *)
(** ** Recommendation approval channel (routes/ml_quality.py) *)
(* ===================================================================== *)

Inductive recommendation_status := PENDING | APPROVED | REJECTED.

(** A row of ML_CONFIG_RECOMMENDATIONS; REC_DETAILS is stored as JSON text
    and held here as the value [json.loads] gives back. *)
Record recommendation := mkRecommendation {
  rec_id : string;
  rec_type : string;
  rec_details : json;
  rec_status : recommendation_status;
  approved_by : option json;
  approved_at : option Z;
  rec_notes : option string
}.

(** The object store (S3 objects, parsed), the recommendation table and the
    config-reload notification queue. *)
Record ml_state := mkMlState {
  s3_objects : list (string * json);
  recommendations : list recommendation;
  reload_queue : list json
}.

(** An HTTP answer: status code and JSON body. *)
Record http_response := mkResponse { resp_code : nat; resp_body : json }.

Definition resp_error (code : nat) (msg : string) : http_response :=
  mkResponse code (JObj [("error", JStr msg)]).

Definition is_pending (r : recommendation) : bool :=
  match rec_status r with PENDING => true | _ => false end.

(** [config[k] = v] on a dict. *)
Definition obj_set (k : string) (v : json) (kv : list (string * json)) : list (string * json) :=
  match assoc_last k kv with
  | Some _ => map (fun p => if String.eqb p.1 k then (k, v) else p) kv
  | None => kv ++ [(k, v)]
  end.

(** [set(v)] of an iterable of hashable values, as a list. *)
Definition py_set_of (v : json) : option (list json) :=
  match py_iter v with
  | Some l => if existsb py_unhashable l then None else Some (py_set_list [] l)
  | None => None
  end.

Definition KEYWORDS_KEY : string := "configs/classification-keywords.json".
Definition CLASSIFICATIONS_KEY : string := "configs/call-classifications.json".

(** The [churn_keywords] branch: the new object, or [None] on a raise. *)
Definition add_churn_keywords (details config : json) : option json :=
  match details, config with
  | JObj dkv, JObj ckv =>
      let new_keywords := match assoc_last "keywords" dkv with Some k => k | None => JArr [] end in
      let existing :=
        match assoc_last "churn_keywords" ckv with
        | None => Some (JArr [])
        | Some (JObj ck) => Some (match assoc_last "medium" ck with Some m => m | None => JArr [] end)
        | Some _ => None
        end in
      match existing with
      | None => None
      | Some ex =>
          match py_set_of ex, py_set_of new_keywords, assoc_last "churn_keywords" ckv with
          | Some exs, Some news, Some (JObj ck) =>
              Some (JObj (obj_set "churn_keywords"
                            (JObj (obj_set "medium" (JArr (py_set_list [] (exs ++ news))) ck)) ckv))
          | _, _, _ => None
          end
      end
  | _, _ => None
  end.

(** The [churn_threshold] branch. *)
Definition set_churn_threshold (details config : json) : option json :=
  match details, config with
  | JObj dkv, JObj ckv =>
      let nt := match assoc_last "recommended_value" dkv with Some v => v | None => JInt 40 end in
      match assoc_last "churn_detection" ckv with
      | None => Some config
      | Some (JObj cd) =>
          match py_num nt with
          | Some q => Some (JObj (obj_set "churn_detection"
                                    (JObj (obj_set "threshold" (JFloat (q / 100)) cd)) ckv))
          | None => None
          end
      | Some _ => None
      end
  | _, _ => None
  end.

(** Read, change and write back one object of the store. *)
Definition s3_update (key : string) (f : json -> option json) (objs : list (string * json))
    : option (list (string * json)) :=
  match find (fun p => String.eqb p.1 key) objs with
  | None => None  (* NoSuchKey *)
  | Some (_, cfg) =>
      match f cfg with
      | None => None
      | Some cfg' => Some ((key, cfg') :: List.filter (fun p => negb (String.eqb p.1 key)) objs)
      end
  end.

Definition mark_approved (now : Z) (id : string) (approver : json) (r : recommendation)
    : recommendation :=
  if String.eqb (rec_id r) id
  then mkRecommendation (rec_id r) (rec_type r) (rec_details r) APPROVED
         (Some approver) (Some now) (rec_notes r)
  else r.

(** [api_ml_approve]; [db_ok] says whether the final UPDATE succeeds. *)
Definition api_ml_approve (now : Z) (data : payload) (db_ok : bool) (st : ml_state)
    : ml_state * http_response :=
  let approver := dget_or data "approver" (JStr "dashboard_user") in
  match dget_or data "rec_id" JNull with
  | v =>
    if negb (py_truthy v) then (st, resp_error 400 "rec_id is required") else
    match v with
    | JStr id =>
      match find (fun r => String.eqb (rec_id r) id && is_pending r) (recommendations st) with
      | None => (st, resp_error 404 "Recommendation not found or already processed")
      | Some r =>
          let objs' :=
            if String.eqb (rec_type r) "churn_keywords"
            then s3_update KEYWORDS_KEY (add_churn_keywords (rec_details r)) (s3_objects st)
            else if String.eqb (rec_type r) "churn_threshold"
            then s3_update CLASSIFICATIONS_KEY (set_churn_threshold (rec_details r)) (s3_objects st)
            else Some (s3_objects st) in
          match objs' with
          | None => (st, resp_error 500 "error")
          | Some objs =>
              if db_ok
              then (mkMlState objs (map (mark_approved now id approver) (recommendations st))
                              (reload_queue st),
                    mkResponse 200 (JObj [("success", JBool true); ("rec_type", JStr (rec_type r))]))
              else (mkMlState objs (recommendations st) (reload_queue st), resp_error 500 "error")
          end
      end
    | _ => (st, resp_error 404 "Recommendation not found or already processed")
    end
  end.

(** The message [api_ml_apply] sends. *)
Definition reload_message (triggered_by : json) (now : Z) : json :=
  JObj [("action", JStr "reload_configs"); ("triggered_by", triggered_by);
        ("timestamp", JInt now)].

(** [api_ml_apply]; [send_ok] says whether [send_message] succeeds. *)
Definition api_ml_apply (now : Z) (data : payload) (send_ok : bool) (st : ml_state)
    : ml_state * http_response :=
  let triggered_by := dget_or data "triggered_by" (JStr "dashboard_user") in
  if send_ok
  then (mkMlState (s3_objects st) (recommendations st)
                  (reload_queue st ++ [reload_message triggered_by now]),
        mkResponse 200 (JObj [("success", JBool true)]))
  else (st, resp_error 500 "error").

(** [api_ml_reject]: UPDATE ... SET STATUS = 'REJECTED', NOTES = :reason
    WHERE RAWTOHEX(REC_ID) = :rec_id *)
Definition api_ml_reject (E : Env) (data : payload) (db_ok : bool) (st : ml_state)
    : ml_state * http_response :=
  let rejected_by := dget_or data "rejected_by" (JStr "dashboard_user") in
  let reason := dget_or data "reason" (JStr EmptyString) in
  let v := dget_or data "rec_id" JNull in
  if negb (py_truthy v) then (st, resp_error 400 "rec_id is required") else
  match v with
  | JStr id =>
      if db_ok then
        let note := ("Rejected by " +:+ py_str E rejected_by +:+ ": " +:+ py_str E reason)%string in
        (mkMlState (s3_objects st)
           (map (fun r => if String.eqb (rec_id r) id
                          then mkRecommendation (rec_id r) (rec_type r) (rec_details r) REJECTED
                                 (approved_by r) (approved_at r) (Some note)
                          else r) (recommendations st))
           (reload_queue st),
         mkResponse 200 (JObj [("success", JBool true)]))
      else (st, resp_error 500 "error")
  | _ => (st, resp_error 500 "error")  (* a non-string id fails the RAWTOHEX comparison *)
  end.

(* ===================================================================== *)
(** ** Views and runs used by the statements *)
(* ===================================================================== *)

(** The destination state with the apply-time columns (PROCESSED_AT,
    CREATION_DATE) blanked. *)
Definition strip_dicta (x : dicta_row) : dicta_row :=
  mkDictaRow (dc_call_id x) (dc_customer_id x) (dc_subscriber_no x) (dc_call_time x)
    (dc_summary x) (dc_sentiment x) (dc_classification x) (dc_all_classifications x)
    (dc_confidence x) (dc_processing_time x) (dc_model_version x) 0.
Definition strip_summary (x : conv_summary_row) : conv_summary_row :=
  mkSummaryRow (cs_source_type x) (cs_source_id x) 0 (cs_summary x) (cs_satisfaction x)
    (cs_sentiment x) (cs_products x) (cs_unresolved_issues x) (cs_action_items x)
    (cs_ban x) (cs_subscriber_no x) (cs_conversation_time x) (cs_churn_score x).
Definition strip_category (x : conv_category_row) : conv_category_row :=
  mkCategoryRow (cc_source_id x) (cc_source_type x) 0 (cc_category_code x).

Definition strip_times (d : db) : db :=
  mkDb (map strip_dicta (dicta_call_summary d)) (map strip_summary (conversation_summary d))
       (map strip_category (conversation_category d)) (cdc_processed_calls d) (error_log d).

(** Repeated delivery of one result with a fixed source type, one clock
    reading per attempt. *)
Fixpoint redeliver (E : Env) (tag key : string) (r : payload) (clocks : list Z) (d : db) : db :=
  match clocks with
  | [] => d
  | t :: ts => redeliver E tag key r ts (fst (write_result_rows E t tag key r d))
  end.

(** The operations of the CDC process that touch [pending_source_types]. *)
Inductive cdc_op :=
| OpIngest (now : Z) (r : payload)
| OpDispatch (sent : send_outcome) (mark : mark_outcome) (log_ok : bool) (conv : conversation)
             (source_id : string).

Definition cdc_step (E : Env) (st : service) (op : cdc_op) : service :=
  match op with
  | OpIngest now r => fst (write_ml_result E now st r)
  | OpDispatch sent mark log_ok conv sid => fst (send_to_sqs_for_source E sent mark log_ok conv sid st)
  end.

Definition cdc_run (E : Env) (st : service) (ops : list cdc_op) : service :=
  fold_left (cdc_step E) ops st.

Definition dispatches_key (key : string) (op : cdc_op) : bool :=
  match op with
  | OpDispatch _ _ _ conv _ => String.eqb (cv_call_id conv) key
  | OpIngest _ _ => false
  end.

(** A concrete environment: every INSERT accepted, no source row found,
    [repr()] rendered as a fixed placeholder, lower-casing of ASCII letters
    (which is [str.lower] on ASCII text). *)
Definition sample_env : Env :=
  mkEnv (fun _ => "<value>") (fun _ => None) (fun _ => None) (fun _ => EmptyString)
        (fun _ _ => EmptyString) (fun _ _ _ => None)
        (fun _ => true) (fun _ => true) (fun _ => true) str_lower.

Definition empty_db : db := mkDb [] [] [] [] [].
Definition empty_service : service := mkService ∅ empty_db.

(** Scenario S4 of the spec. *)
Definition s4_result : payload :=
  [("type", JStr "ML_RESULT"); ("callId", JStr "CALL001"); ("sentiment", JStr "positive");
   ("classification", JObj [("primary", JStr "BILLING");
                            ("all", JArr [JStr "BILLING"; JStr "OFFER"])]);
   ("churn_confidence", JFloat (82 # 100)); ("customer_satisfaction", JInt 4);
   ("summary", JObj [("text", JStr "Billing question about an offer")])].

(** Sixteen fragments of one VERINT call, alternating channels A and C,
    whose texts are all blank. *)
Definition blank_fragments : list fragment :=
  map (fun i => mkFragment "CALL900" (JInt 1) (JInt 2)
                  (Some (if Nat.even i then "A" else "C")) (Some (Z.of_nat i)) (Some "   "))
      (seq 0 16).
(* ===================================================================== *)
(** ** The text cleaners of cdc_service.py *)
(* ===================================================================== *)

(** The characters both cleaners remove: [ ] { } and the two quotes. *)
Definition BRACKET_CHARS : list ascii :=
  ["["%char; "]"%char; "{"%char; "}"%char; ascii_of_nat 34; "'"%char].

(** [s.replace(c, '')] for one character [c]. *)
Fixpoint str_replace_char (c : ascii) (s : string) : string :=
  match s with
  | EmptyString => EmptyString
  | String x t => if Ascii.eqb x c then str_replace_char c t else String x (str_replace_char c t)
  end.

(** The loop that removes each character of [BRACKET_CHARS] from [s]
    with [s.replace(char, '')]. *)
Definition remove_bracket_chars (s : string) : string :=
  fold_left (fun acc c => str_replace_char c acc) BRACKET_CHARS s.

(** [s.split(c)]: the pieces between the separators, empty ones included. *)
Fixpoint str_split (c : ascii) (s : string) : list string :=
  match s with
  | EmptyString => [EmptyString]
  | String x t =>
      let rest := str_split c t in
      if Ascii.eqb x c then EmptyString :: rest
      else match rest with
           | piece :: ps => String x piece :: ps
           | [] => [String x EmptyString]
           end
  end.

(** [s.rfind(c)], [None] standing for -1. *)
Fixpoint str_rfind (c : ascii) (s : string) : option nat :=
  match s with
  | EmptyString => None
  | String x t =>
      match str_rfind c t with
      | Some i => Some (S i)
      | None => if Ascii.eqb x c then Some 0%nat else None
      end
  end.

Fixpoint drop_chars_in (cs : list ascii) (l : list ascii) : list ascii :=
  match l with
  | [] => []
  | c :: t => if existsb (Ascii.eqb c) cs then drop_chars_in cs t else l
  end.

(** [s.rstrip(chars)] *)
Definition str_rstrip_chars (cs : list ascii) (s : string) : string :=
  string_of_list_ascii (rev (drop_chars_in cs (rev (list_ascii_of_string s)))).

(** The keys of a dict built by [json.loads], in insertion order (a repeated
    key keeps the place of its first occurrence). *)
Fixpoint dict_key_order (seen : list string) (kv : list (string * json)) : list string :=
  match kv with
  | [] => []
  | (k, _) :: t =>
      if existsb (String.eqb k) seen then dict_key_order seen t
      else k :: dict_key_order (k :: seen) t
  end.

(** [d.items()]: each key with its last binding. *)
Definition dict_items (kv : list (string * json)) : list (string * json) :=
  map (fun k => (k, match assoc_last k kv with Some v => v | None => JNull end))
      (dict_key_order [] kv).

Module Cleaners.
Section Cleaners.
Variable E : Env.
(** [json.loads]; [None] is a JSONDecodeError. *)
Variable json_loads : string -> option json.

Definition TEXT_FIELDS : list string :=
  ["action"; "description"; "name"; "instructions"; "task"; "item"; "text"].

(** The loop of [extract_text_from_dict] over the given fields. *)
Fixpoint first_text (fields : list string) (d : list (string * json)) : string :=
  match fields with
  | [] => EmptyString
  | field :: fs =>
      match assoc_last field d with
      | Some v =>
          if py_truthy v then
            let text := str_strip (py_str E v) in
            if negb (String.eqb text EmptyString) && negb (String.eqb (py_lower E text) "none")
            then text else first_text fs d
          else first_text fs d
      | None => first_text fs d
      end
  end.

(** [extract_text_from_dict] on a dict. *)
Definition extract_text_from_dict (d : list (string * json)) : string :=
  first_text TEXT_FIELDS d.

(** What one item of a list contributes to [action_texts]. *)
Definition item_action_texts (item : json) : list string :=
  match item with
  | JObj d =>
      let text := extract_text_from_dict d in
      if String.eqb text EmptyString then [] else [text]
  | _ =>
      if py_truthy item && negb (String.eqb (str_strip (py_str E item)) EmptyString)
         && negb (String.eqb (py_lower E (py_str E item)) "none")
      then [str_strip (py_str E item)] else []
  end.

(** [action_texts] of a (parsed) value: lists item by item, one dict, and
    nothing for any other value. *)
Definition action_texts (value : json) : list string :=
  match value with
  | JArr items => flat_map item_action_texts items
  | JObj d =>
      let text := extract_text_from_dict d in
      if String.eqb text EmptyString then [] else [text]
  | _ => []
  end.

(** The final truncation: [result[:max_length]], cut at the last comma when
    it lies beyond half of [max_length] ([last_comma > max_length * 0.5]),
    then [rstrip(', ')]. *)
Definition truncate_result (max_length : nat) (result : string) : string :=
  if Nat.ltb max_length (String.length result) then
    let r1 := str_prefix max_length result in
    let r2 := match str_rfind ","%char r1 with
              | Some last_comma =>
                  if Nat.ltb max_length (2 * last_comma) then str_prefix last_comma r1 else r1
              | None => r1
              end in
    str_rstrip_chars [","%char; " "%char] r2
  else result.

(** [extract_action_items_text(value, max_length)] *)
Definition extract_action_items_text (value : json) (max_length : nat) : string :=
  if negb (py_truthy value) then EmptyString else
  let parsed :=
    match value with
    | JStr s =>
        let s' := str_strip s in
        match json_loads s' with
        | Some p => inl p
        | None => inr (str_strip (str_prefix max_length (remove_bracket_chars s')))
        end
    | v => inl v
    end in
  match parsed with
  | inr plain => plain
  | inl v => truncate_result max_length (str_join ", " (action_texts v))
  end.

(** [clean_str] of [clean_json_to_csv] *)
Definition clean_str (s : string) : string := str_strip (remove_bracket_chars s).

Definition nonempty (s : string) : bool := negb (String.eqb s EmptyString).

(** The list branch: [', '.join(i for i in [clean_str(str(x)) for x in l if x] if i)] *)
Definition csv_of_list (l : list json) : string :=
  str_join ", " (List.filter nonempty (map (fun x => clean_str (py_str E x)) (List.filter py_truthy l))).

(** The dict branch: each item [k, v] of [d.items()] with a truthy [v]
    rendered as [k], a colon, a space and [clean_str(str(v))], joined with
    [', ']. *)
Definition csv_of_dict (kv : list (string * json)) : string :=
  str_join ", " (map (fun p => p.1 +:+ ": " +:+ clean_str (py_str E p.2))
                     (List.filter (fun p => py_truthy p.2) (dict_items kv))).

(** [clean_json_to_csv(value)] *)
Definition clean_json_to_csv (value : json) : string :=
  if negb (py_truthy value) then EmptyString else
  match value with
  | JArr l => csv_of_list l
  | JObj kv => csv_of_dict kv
  | JStr s =>
      let s' := str_strip s in
      match json_loads s' with
      | Some (JArr l) => csv_of_list l
      | Some (JObj kv) => csv_of_dict kv
      | _ => str_join ", " (List.filter nonempty
                              (map str_strip (str_split ","%char (remove_bracket_chars s'))))
      end
  | v => py_str E v
  end.

End Cleaners.
End Cleaners.

(** No character of [BRACKET_CHARS] occurs in [s]. *)
Definition no_bracket_chars (s : string) : bool :=
  forallb (fun c => negb (existsb (Ascii.eqb c) BRACKET_CHARS)) (list_ascii_of_string s).



(* ===================================================================== *)
(** ** Inbound results: receive_ml_results and flush_all_sqs_to_db *)
(* ===================================================================== *)

(** A message of the inbound queue: [message['Body']] ([None] is a
    KeyError), the [StringValue] of its [messageType] attribute, and
    [message['ReceiptHandle']]. *)
Record sqs_message := mkSqsMessage {
  sm_body : option string;
  sm_type : option string;
  sm_receipt : option string
}.

(** A message as one poll hands it over, with the clock reading of its
    [write_ml_result] and whether [delete_message] succeeds. *)
Record inbound := mkInbound {
  in_msg : sqs_message;
  in_now : Z;
  in_delete_ok : bool
}.

(** [MESSAGE_TYPES['ML_RESULT']] (config.py) *)
Definition ML_RESULT_TYPE : string := "ML_PROCESSING_RESULT".

Section Inbound.
Variable E : Env.
Variable json_loads : string -> option json.

Definition is_ml_result (m : sqs_message) : bool :=
  match sm_type m with Some t => String.eqb t ML_RESULT_TYPE | None => false end.

(** The body of the message loop of [receive_ml_results] (and of
    [flush_all_sqs_to_db]): the new state and whether the message was
    deleted and counted. [body.get] on a body that is not a dict raises
    before the write; every exception is caught per message. *)
Definition receive_one (st : service) (m : inbound) : service * bool :=
  match sm_body (in_msg m) with
  | None => (st, false)
  | Some b =>
      match json_loads b with
      | None => (st, false)
      | Some body =>
          if is_ml_result (in_msg m) then
            match body with
            | JObj kv =>
                let '(st', success) := write_ml_result E (in_now m) st kv in
                (st', success && in_delete_ok m
                      && match sm_receipt (in_msg m) with Some _ => true | None => false end)
            | _ => (st, false)
            end
          else (st, false)
      end
  end.

Definition receive_loop (acc : service * nat) (m : inbound) : service * nat :=
  let '(st, n) := acc in
  let '(st', deleted) := receive_one st m in
  (st', if deleted then S n else n).

(** [receive_ml_results] on the response of one [receive_message] call
    ([None] when the call raises): the new state and the increase of
    [stats['total_ml_results_received']]. *)
Definition receive_ml_results (response : option (list inbound)) (st : service)
    : service * nat :=
  match response with
  | None => (st, 0%nat)
  | Some msgs => fold_left receive_loop msgs (st, 0%nat)
  end.

(** [flush_all_sqs_to_db(continuous=False)] on the responses of its
    successive [receive_message] calls: it stops at the first empty
    response, at the first call that raises, or when the responses run
    out; the result is the state and [total_processed]. *)
Fixpoint flush_cycle (responses : list (option (list inbound))) (acc : service * nat)
    : service * nat :=
  match responses with
  | [] => acc
  | None :: _ => acc
  | Some [] :: _ => acc
  | Some msgs :: rest => flush_cycle rest (fold_left receive_loop msgs acc)
  end.

Definition flush_all_sqs_to_db_once (responses : list (option (list inbound))) (st : service)
    : service * nat :=
  flush_cycle responses (st, 0%nat).

End Inbound.

(* ===================================================================== *)
(** ** Batches: process_batch_for_source, process_batch, update_cdc_status *)
(* ===================================================================== *)

(** [TABLE_SOURCES[source_id]['cdc_mode_key']] (config.py) *)
Definition cdc_mode_key_of (source_id : string) : option string :=
  if String.eqb source_id "verint" then Some "CDC_NORMAL_MODE"
  else if String.eqb source_id "sf_oc" then Some "CDC_NORMAL_MODE_SF_OC"
  else None.

(** A row of CDC_PROCESSING_STATUS. *)
Record cdc_status_row := mkCdcStatusRow {
  status_table_name : string;
  last_processed_timestamp : Z;
  total_processed : Z
}.

(** [update_cdc_status(mode, timestamp)]: one UPDATE keyed by TABLE_NAME; a
    failure is logged and swallowed ([status_ok = false]). *)
Definition update_cdc_status (status_ok : bool) (mode : string) (ts : Z)
    (rows : list cdc_status_row) : list cdc_status_row :=
  if status_ok
  then map (fun r => if String.eqb (status_table_name r) mode
                     then mkCdcStatusRow (status_table_name r) ts (total_processed r + 1)
                     else r) rows
  else rows.

(** One record of a batch: its id, the rows its assembly query returns, the
    clock of the assembly, the outcomes of [send_message] and of the
    marking, whether the error-logging and status updates succeed, and the
    clock of the status update. *)
Record batch_record := mkBatchRecord {
  br_record_id : string;
  br_rows : list fragment;
  br_assembled_at : Z;
  br_sent : send_outcome;
  br_mark : mark_outcome;
  br_log_ok : bool;
  br_status_ok : bool;
  br_status_time : Z
}.

(** The service state a batch works on, with the counters
    [stats['total_calls_processed']] and [stats['total_calls_failed']]. *)
Record cdc_state := mkCdcState {
  cdc_service : service;
  cdc_status : list cdc_status_row;
  calls_processed : nat;
  calls_failed : nat
}.

(** The body of the loop of [process_batch_for_source] for one record. *)
Definition process_record (E : Env) (source_id mode : string) (s : cdc_state)
    (b : batch_record) : cdc_state :=
  match assemble_conversation_for_source (br_assembled_at b) (br_record_id b) source_id (br_rows b) with
  | None => mkCdcState (cdc_service s) (cdc_status s) (calls_processed s) (S (calls_failed s))
  | Some conv =>
      let '(st', message_id) :=
        send_to_sqs_for_source E (br_sent b) (br_mark b) (br_log_ok b) conv source_id (cdc_service s) in
      if truthy_str message_id
      then mkCdcState st' (update_cdc_status (br_status_ok b) mode (br_status_time b) (cdc_status s))
                      (S (calls_processed s)) (calls_failed s)
      else mkCdcState st' (cdc_status s) (calls_processed s) (S (calls_failed s))
  end.

(** [process_batch_for_source(record_ids, source_id)]; [None] is the
    KeyError of an unknown source. *)
Definition process_batch_for_source (E : Env) (records : list batch_record) (source_id : string)
    (s : cdc_state) : option cdc_state :=
  match source_of source_id, cdc_mode_key_of source_id with
  | Some _, Some mode => Some (fold_left (process_record E source_id mode) records s)
  | _, _ => None
  end.

(** The single-source [assemble_conversation] (VERINT, at least 11 rows,
    channels A and C), given the rows returned by its query. *)
Definition assemble_conversation (now : Z) (call_id : string) (rows : list fragment)
    : option conversation :=
  match rows with
  | [] => None
  | first :: _ =>
      if Nat.ltb (length rows) 11 then None else
      let channels := observed_channels rows in
      if negb (existsb (String.eqb "A") channels) || negb (existsb (String.eqb "C") channels)
      then None else
      let messages := map (fun f => mkMessage (fr_owner f)
                                     (match fr_text f with Some t => t | None => EmptyString end)
                                     (fr_time f))
                          (List.filter has_text rows) in
      Some (mkConversation "CONVERSATION_ASSEMBLY" call_id (fr_ban first)
              (fr_subscriber_no first) (fr_time first) messages (length messages)
              now "on-premises-cdc" None)
  end.






(* ===================================================================== *)
(** ** The backfill batch (backfill_service.py) *)
(* ===================================================================== *)

(** [BackfillService.mark_processed]: a MERGE that inserts the call id when
    no row has it. SQS_MESSAGE_ID is not set, and Oracle stores that NULL
    like the empty string. A failure is logged and swallowed. *)
Definition mark_processed (mark_ok : bool) (call_id : string) (d : db) : db :=
  if negb mark_ok then d
  else if existsb (fun x => String.eqb (pc_call_id x) call_id) (cdc_processed_calls d) then d
  else set_processed d (cdc_processed_calls d ++ [mkProcessedRow call_id EmptyString]).

(** One entry of a backfill batch: the call id, the rows its assembly query
    returns, the clock, and whether [send_message] and the MERGE succeed. *)
Record backfill_call := mkBackfillCall {
  bc_call_id : string;
  bc_rows : list fragment;
  bc_now : Z;
  bc_send_ok : bool;
  bc_mark_ok : bool
}.

Record backfill_state := mkBackfillState {
  bf_db : db;
  bf_total_processed : nat;
  bf_total_sent : nat;
  bf_total_skipped : nat
}.

(** The body of the loop of [BackfillService.process_batch]. *)
Definition backfill_step (s : backfill_state) (c : backfill_call) : backfill_state :=
  match backfill_assemble_conversation (bc_now c) (bc_call_id c) (bc_rows c) with
  | Some _ =>
      if bc_send_ok c
      then mkBackfillState (mark_processed (bc_mark_ok c) (bc_call_id c) (bf_db s))
             (S (bf_total_processed s)) (S (bf_total_sent s)) (bf_total_skipped s)
      else mkBackfillState (bf_db s) (S (bf_total_processed s)) (bf_total_sent s) (bf_total_skipped s)
  | None =>
      mkBackfillState (mark_processed (bc_mark_ok c) (bc_call_id c) (bf_db s))
        (S (bf_total_processed s)) (bf_total_sent s) (S (bf_total_skipped s))
  end.

(** [BackfillService.process_batch] *)
Definition backfill_process_batch (calls : list backfill_call) (s : backfill_state)
    : backfill_state :=
  fold_left backfill_step calls s.

(** The ids recorded in CDC_PROCESSED_CALLS. *)
Definition processed_ids (d : db) : list string := map pc_call_id (cdc_processed_calls d).

(** A conversation without its [sourceId] field. *)
Definition drop_source_id (c : conversation) : conversation :=
  mkConversation (cv_type c) (cv_call_id c) (cv_ban c) (cv_subscriber_no c) (cv_call_time c)
    (cv_messages c) (cv_message_count c) (cv_assembled_at c) (cv_source c) None.

(** A backfill entry whose conversation was assembled but not sent. *)
Definition backfill_send_failed (c : backfill_call) : bool :=
  match backfill_assemble_conversation (bc_now c) (bc_call_id c) (bc_rows c) with
  | Some _ => negb (bc_send_ok c)
  | None => false
  end.

(** The messages of a response that carry the ML result type. *)
Definition ml_messages (response : option (list inbound)) : nat :=
  match response with
  | Some msgs => length (List.filter (fun m => is_ml_result (in_msg m)) msgs)
  | None => 0%nat
  end.


(** A result whose churn_confidence is a string. *)
Definition text_churn_result : payload :=
  [("callId", JStr "CALL002"); ("churn_confidence", JStr "high")].

(** A record of a batch that assembled and whose send succeeded. *)
Definition batch_dispatched (source_id : string) (b : batch_record) : bool :=
  match assemble_conversation_for_source (br_assembled_at b) (br_record_id b) source_id (br_rows b) with
  | Some _ => match br_sent b with SendOk _ => true | SendRaises _ => false end
  | None => false
  end.

(** A CDC state with its processed-ID store and status rows, for examples. *)
Definition cdc_state0 : cdc_state :=
  mkCdcState empty_service [mkCdcStatusRow "CDC_NORMAL_MODE" 0 0] 0 0.

(** A batch of two records of VERINT: the first is sent, the second has
    too few rows. *)
Definition sample_batch : list batch_record :=
  [mkBatchRecord "CALL900" blank_fragments 1 (SendOk "m1") (MarkRuns true None) true true 2;
   mkBatchRecord "CALL901" [] 3 (SendOk "m2") (MarkRuns true None) true true 4].

(* ===================================================================== *)
(** ** Alert configurations (routes/alerts.py) *)
(* ===================================================================== *)

(** A row of ALERT_CONFIGURATIONS. ALERT_ID is held as the upper-case hex
    text that RAWTOHEX gives; the other columns hold the bound values. *)
Record alert_config_row := mkAlertConfigRow {
  cfg_alert_id : string;
  cfg_alert_name : json;
  cfg_alert_name_he : json;
  cfg_alert_type : json;
  cfg_metric_source : json;
  cfg_metric_name : json;
  cfg_condition_operator : json;
  cfg_threshold_value : json;
  cfg_time_window_hours : json;
  cfg_filter_product : json;
  cfg_filter_sentiment : json;
  cfg_severity : json;
  cfg_description : json;
  cfg_is_enabled : option Z
}.

Definition ascii_upper (c : ascii) : ascii :=
  let n := nat_of_ascii c in
  if andb (Nat.leb 97 n) (Nat.leb n 122) then ascii_of_nat (n - 32) else c.

Fixpoint str_upper (s : string) : string :=
  match s with
  | EmptyString => EmptyString
  | String c t => String (ascii_upper c) (str_upper t)
  end.

(** [ALERT_ID = HEXTORAW(:alert_id)]: hex digits compare without regard to
    case. An id that is not hex text makes the statement raise, which the
    [db_ok] flag of the callers covers. *)
Definition hextoraw_eqb (stored given : string) : bool :=
  String.eqb stored (str_upper given).

Definition CONFIG_REQUIRED : list string :=
  ["alert_name"; "metric_source"; "metric_name"; "condition_operator"; "threshold_value"].

(** [for field in required: if field not in data: return ... 400] *)
Definition first_missing (data : payload) (fields : list string) : option string :=
  find (fun f => match dget data f with None => true | Some _ => false end) fields.

(** The row the INSERT of [create_configuration] adds. ALERT_ID and
    IS_ENABLED are not bound by the INSERT: they take the table's defaults,
    which are not in the sources and are given here as arguments. *)
Definition config_row_of (new_id : string) (enabled_default : option Z) (data : payload)
    : alert_config_row :=
  mkAlertConfigRow new_id
    (dget_or data "alert_name" JNull)
    (dget_or data "alert_name_he" JNull)
    (dget_or data "alert_type" (JStr "threshold"))
    (dget_or data "metric_source" JNull)
    (dget_or data "metric_name" JNull)
    (dget_or data "condition_operator" JNull)
    (dget_or data "threshold_value" JNull)
    (dget_or data "time_window_hours" (JInt 24))
    (dget_or data "filter_product" JNull)
    (dget_or data "filter_sentiment" JNull)
    (dget_or data "severity" (JStr "WARNING"))
    (dget_or data "description" JNull)
    enabled_default.

(** [create_configuration]; [db_ok] says whether the INSERT succeeds. *)
Definition create_configuration (new_id : string) (enabled_default : option Z) (data : payload)
    (db_ok : bool) (t : list alert_config_row) : list alert_config_row * http_response :=
  match first_missing data CONFIG_REQUIRED with
  | Some field => (t, resp_error 400 ("Missing required field: " +:+ field))
  | None =>
      if db_ok
      then (t ++ [config_row_of new_id enabled_default data],
            mkResponse 200 (JObj [("success", JBool true);
                                  ("message", JStr "Alert configuration created")]))
      else (t, resp_error 500 "error")
  end.

(** [CASE WHEN IS_ENABLED = 1 THEN 0 ELSE 1 END]; a NULL flag takes the
    ELSE branch. *)
Definition toggle_flag (e : option Z) : option Z :=
  match e with
  | Some 1 => Some 0
  | _ => Some 1
  end.

Definition set_is_enabled (r : alert_config_row) (e : option Z) : alert_config_row :=
  mkAlertConfigRow (cfg_alert_id r) (cfg_alert_name r) (cfg_alert_name_he r) (cfg_alert_type r)
    (cfg_metric_source r) (cfg_metric_name r) (cfg_condition_operator r) (cfg_threshold_value r)
    (cfg_time_window_hours r) (cfg_filter_product r) (cfg_filter_sentiment r) (cfg_severity r)
    (cfg_description r) e.

(** [new_state == 1] *)
Definition flag_is_one (e : option Z) : bool :=
  match e with Some 1 => true | _ => false end.

(** [toggle_configuration(alert_id)]: the UPDATE, then the SELECT of the
    new flag ([fetchone], [None] when no row matches); [db_ok] says whether
    the statements succeed. *)
Definition toggle_configuration (alert_id : string) (db_ok : bool) (t : list alert_config_row)
    : list alert_config_row * http_response :=
  if db_ok then
    let t' := map (fun r => if hextoraw_eqb (cfg_alert_id r) alert_id
                            then set_is_enabled r (toggle_flag (cfg_is_enabled r)) else r) t in
    let new_state := match find (fun r => hextoraw_eqb (cfg_alert_id r) alert_id) t' with
                     | Some r => cfg_is_enabled r
                     | None => None
                     end in
    (t', mkResponse 200 (JObj [("success", JBool true);
                               ("is_enabled", JBool (flag_is_one new_state));
                               ("message", JStr (if flag_is_one new_state
                                                 then "Alert enabled" else "Alert disabled"))]))
  else (t, resp_error 500 "error").

(** A flag as two toggles leave it: 1 stays 1, anything else becomes 0. *)
Definition flag_01 (e : option Z) : option Z :=
  if flag_is_one e then Some 1 else Some 0.

(* ===================================================================== *)
(** ** Classification feedback (routes/ml_quality.py) *)
(* ===================================================================== *)

(** A row of ML_CLASSIFICATION_FEEDBACK (FEEDBACK_ID and CREATED_AT are set
    by SYS_GUID() and SYSTIMESTAMP and are left out). *)
Record feedback_row := mkFeedbackRow {
  fb_call_id : json;
  fb_ml_category : json;
  fb_correct_category : json;
  fb_is_correct : Z;
  fb_reviewer : json
}.

(** [api_ml_feedback]; [db_ok] says whether the INSERT succeeds. *)
Definition api_ml_feedback (data : payload) (db_ok : bool) (rows : list feedback_row)
    : list feedback_row * http_response :=
  let call_id := dget_or data "call_id" JNull in
  let ml_category := dget_or data "ml_category" JNull in
  let correct_category := dget_or data "correct_category" JNull in
  let is_correct := dget_or data "is_correct" (JBool false) in
  let reviewer := dget_or data "reviewer" (JStr "dashboard_user") in
  if negb (py_truthy call_id) then (rows, resp_error 400 "call_id is required") else
  if db_ok
  then (rows ++ [mkFeedbackRow call_id ml_category
                   (if py_truthy is_correct then JNull else correct_category)
                   (if py_truthy is_correct then 1 else 0) reviewer],
        mkResponse 200 (JObj [("success", JBool true); ("message", JStr "Feedback recorded")]))
  else (rows, resp_error 500 "error").

(** The shape every row written by [api_ml_feedback] has: a truthy CALL_ID,
    IS_CORRECT 0 or 1, and no CORRECT_CATEGORY when IS_CORRECT is 1. *)
Definition feedback_row_ok (r : feedback_row) : bool :=
  py_truthy (fb_call_id r) &&
  (Z.eqb (fb_is_correct r) 0 ||
   (Z.eqb (fb_is_correct r) 1 && match fb_correct_category r with JNull => true | _ => false end)).

(** A RESOLVED row of ALERT_HISTORY, for examples. *)
Definition resolved_row : alert_history :=
  mkAlertHistory 0 "X" 1 10 5 "WARNING" RESOLVED 0 [] None None (Some "ops") (Some 2) (Some "done").

(** A store with one PENDING recommendation of an unrecognised type, for
    examples. *)
Definition sample_ml_state : ml_state :=
  mkMlState [] [mkRecommendation "R1" "prompt_update" (JObj []) PENDING None None None] [].

(** Sixteen fragments of one VERINT call, alternating channels A and C,
    each with a padded word of text. *)
Definition worded_fragments : list fragment :=
  map (fun i => mkFragment "CALL7" (JInt 1) (JInt 2)
                  (Some (if Nat.even i then "A" else "C")) (Some (Z.of_nat i)) (Some " hello "))
      (seq 0 16).

(* ===================================================================== *)
(** * Theorems *)
(* ===================================================================== *)

(** ** The write path of [write_ml_result] *)

(** A successful run of the three writes, unfolded. *)
Lemma write_result_rows_ok (E : Env) (now : Z) (tag key : string) (r : payload)
    (d d' : db) :
  write_result_rows E now tag key r d = (d', true) ->
  exists p srow cs,
    prepare E r = Some p /\
    summary_row_of E now tag key r p = Some srow /\
    category_values E r (pr_classification p) = Some cs /\
    d' = set_category
           (set_summary
              (set_dicta d (List.filter (fun x => negb (String.eqb (dc_call_id x) key))
                              (dicta_call_summary d) ++ [dicta_row_of key now p]))
              (List.filter (not_key_summary tag key) (conversation_summary d) ++ [srow]))
           (List.filter (not_key_category tag key) (conversation_category d)
            ++ map (category_row_of E tag key now) cs).
Proof.
  unfold write_result_rows.
  destruct (prepare E r) as [p|] eqn:Hp; [|discriminate].
  destruct (accepts_dicta E (dicta_row_of key now p)); simpl; [|discriminate].
  destruct (summary_row_of E now tag key r p) as [srow|] eqn:Hs; [|discriminate].
  destruct (accepts_summary E srow); simpl; [|discriminate].
  destruct (category_values E r (pr_classification p)) as [cs|] eqn:Hc; [|discriminate].
  destruct (forallb (accepts_category E) (map (category_row_of E tag key now) cs));
    [|discriminate].
  intros H; injection H as <-. exists p, srow, cs. auto.
Qed.

(** [write_ml_result] pops the pending source type first, whatever happens
    next, and writes with it. *)
Lemma write_ml_result_unfold (E : Env) (now : Z) (st : service) (r : payload) :
  write_ml_result E now st r =
  (mkService (delete (py_str E (call_id_of r)) (pending_source_types st))
     (fst (write_result_rows E now
             (match pending_source_types st !! py_str E (call_id_of r) with
              | Some t => t | None => "CALL" end)
             (py_str E (call_id_of r)) r (oracle st))),
   snd (write_result_rows E now
          (match pending_source_types st !! py_str E (call_id_of r) with
           | Some t => t | None => "CALL" end)
          (py_str E (call_id_of r)) r (oracle st))).
Proof.
  unfold write_ml_result, pop_source_type.
  destruct (write_result_rows _ _ _ _ _ _). reflexivity.
Qed.

(** A successful [write_ml_result], as a successful run of the writes. *)
Lemma write_ml_result_ok (E : Env) (now : Z) (st st' : service) (r : payload) :
  write_ml_result E now st r = (st', true) ->
  pending_source_types st' = delete (py_str E (call_id_of r)) (pending_source_types st) /\
  write_result_rows E now
    (match pending_source_types st !! py_str E (call_id_of r) with
     | Some t => t | None => "CALL" end)
    (py_str E (call_id_of r)) r (oracle st) = (oracle st', true).
Proof.
  rewrite write_ml_result_unfold.
  destruct (write_result_rows _ _ _ _ _ _) as [d b].
  intros H. injection H as <- ->. simpl. auto.
Qed.

(** ** C4: derivation of the destination type tag *)

(** Claim C4 (as amended): the destination type tag used by every write of
    [write_ml_result] is [pending_source_types.pop(str(callId), 'CALL')]:
    the entry for the id when there is one, ['CALL'] otherwise, and the
    entry is removed; no other field of the payload (in particular no
    catalog id) takes part. *)
Theorem write_ml_result_source_type (E : Env) (now : Z) (st : service) (r : payload) :
  let key := py_str E (call_id_of r) in
  let tag := match pending_source_types st !! key with Some t => t | None => "CALL" end in
  pending_source_types (fst (write_ml_result E now st r)) = delete key (pending_source_types st) /\
  oracle (fst (write_ml_result E now st r)) = fst (write_result_rows E now tag key r (oracle st)) /\
  snd (write_ml_result E now st r) = snd (write_result_rows E now tag key r (oracle st)).
Proof.
  intros key tag. rewrite write_ml_result_unfold. simpl. auto.
Qed.

(** Claim C4 fails: a result carrying the catalog id [sf_oc] (whose catalog
    tag is ['WAPP']) and no pending entry is written with tag ['CALL']. *)
Lemma write_ml_result_ignores_catalog_id :
  let r := [("callId", JStr "CASE42"); ("source_catalog_id", JStr "sf_oc");
            ("sourceId", JStr "sf_oc"); ("sentiment", JStr "neutral")] in
  option_map dest_source_type (source_of "sf_oc") = Some "WAPP" /\
  snd (write_ml_result sample_env 0 empty_service r) = true /\
  map cs_source_type (conversation_summary (oracle (fst (write_ml_result sample_env 0 empty_service r))))
    = ["CALL"] /\
  map cc_source_type (conversation_category (oracle (fst (write_ml_result sample_env 0 empty_service r))))
    = ["CALL"].
Proof. vm_compute. repeat split. Qed.

(** ** C5: sentiment *)

Lemma prepare_sentiment (E : Env) (r : payload) (p : prepared) :
  prepare E r = Some p -> sentiment_of E r = Some (pr_sentiment p).
Proof.
  unfold prepare.
  destruct (sentiment_of E r) as [n|]; [|discriminate].
  destruct (classification_pick E r) as [[cls allc]|]; [|discriminate].
  repeat match goal with
         | |- match ?x with Some _ => _ | None => _ end = _ -> _ => destruct x; [|discriminate]
         end.
  intros H; injection H as <-. reflexivity.
Qed.

Lemma sentiment_map_get_range (s : string) :
  sentiment_map_get s = 2 \/ sentiment_map_get s = 3 \/ sentiment_map_get s = 4.
Proof.
  unfold sentiment_map_get.
  destruct (find (fun p => String.eqb p.1 s) sentiment_map) as [[k v]|] eqn:Hf; [|auto].
  apply find_some in Hf as [Hin _]. simpl.
  unfold sentiment_map in Hin.
  repeat (destruct Hin as [Hin|Hin]; [injection Hin as _ <-; auto|]). destruct Hin.
Qed.

(** A sentiment that raises stops [write_ml_result] before its first write. *)
Lemma write_ml_result_sentiment_raises (E : Env) (now : Z) (st : service) (r : payload) :
  sentiment_of E r = None ->
  write_ml_result E now st r =
    (mkService (delete (py_str E (call_id_of r)) (pending_source_types st)) (oracle st), false).
Proof.
  intros Hs. rewrite write_ml_result_unfold. unfold write_result_rows, prepare.
  rewrite Hs. reflexivity.
Qed.

Lemma sentiment_map_get_other (s : string) :
  ~ In s (map fst sentiment_map) -> sentiment_map_get s = 3.
Proof.
  intros Hs. unfold sentiment_map_get.
  destruct (find (fun p => String.eqb p.1 s) sentiment_map) as [[k v]|] eqn:Hf; [|reflexivity].
  apply find_some in Hf as [Hin Heq]. simpl in Heq. apply String.eqb_eq in Heq. subst k.
  exfalso. apply Hs. apply (in_map fst) in Hin. exact Hin.
Qed.

(** Claim C5 (as amended): the sentiment stored in DICTA_CALL_SUMMARY by a
    successful write is [sentiment_of] of the result. Its raw value is the
    [overall] field of a dict (3 when absent), 3 when the field is missing
    or falsy, the value itself otherwise. A string goes through the fixed
    map after Python's [lower] and then [strip] (positive 4, negative 2,
    neutral, mixed and unknown 3, anything else 3), so it lands in 2..4. A
    number goes through [int()] with no clamp: 0 gives 3, other integers
    pass unchanged, floats truncate toward zero, [true] gives 1. A
    non-empty list or dict raises, and then [write_ml_result] returns False
    having written nothing: only the pending source type is popped. *)
Theorem sentiment_normalisation (E : Env) (now : Z) (st : service) (r : payload) :
  (forall st', write_ml_result E now st r = (st', true) ->
     exists row, In row (dicta_call_summary (oracle st')) /\
       dc_call_id row = py_str E (call_id_of r) /\ sentiment_of E r = Some (dc_sentiment row)) /\
  sentiment_of E r = sentiment_of_raw E (sentiment_raw_of r) /\
  (dget r "sentiment" = None -> sentiment_of E r = Some 3) /\
  (forall kv, dget r "sentiment" = Some (JObj kv) ->
     sentiment_raw_of r = match assoc_last "overall" kv with Some v => v | None => JInt 3 end) /\
  (forall v, dget r "sentiment" = Some v -> (forall kv, v <> JObj kv) ->
     sentiment_raw_of r = if py_truthy v then v else JInt 3) /\
  (forall s, sentiment_of_raw E (JStr s) = Some (sentiment_map_get (str_strip (py_lower E s)))) /\
  (forall s, sentiment_map_get s = 2 \/ sentiment_map_get s = 3 \/ sentiment_map_get s = 4) /\
  sentiment_map_get "positive" = 4 /\ sentiment_map_get "negative" = 2 /\
  sentiment_map_get "neutral" = 3 /\ sentiment_map_get "mixed" = 3 /\
  sentiment_map_get "unknown" = 3 /\
  (forall s, ~ In s (map fst sentiment_map) -> sentiment_map_get s = 3) /\
  (forall z, sentiment_of_raw E (JInt z) = Some (if z =? 0 then 3 else z)) /\
  (forall q, sentiment_of_raw E (JFloat q) =
     Some (if Qeq_bool q 0 then 3 else Z.quot (Qnum q) (Zpos (Qden q)))) /\
  sentiment_of_raw E (JBool true) = Some 1 /\ sentiment_of_raw E (JBool false) = Some 3 /\
  sentiment_of_raw E JNull = Some 3 /\
  (forall v l, sentiment_of_raw E (JArr (v :: l)) = None) /\
  (forall kv l, sentiment_of_raw E (JObj (kv :: l)) = None) /\
  ((exists v l, sentiment_raw_of r = JArr (v :: l)) \/
   (exists kv l, sentiment_raw_of r = JObj (kv :: l)) ->
   write_ml_result E now st r =
     (mkService (delete (py_str E (call_id_of r)) (pending_source_types st)) (oracle st), false)).
Proof.
  split.
  - intros st' Hok.
    apply write_ml_result_ok in Hok as [_ Hw].
    apply write_result_rows_ok in Hw as (p & srow & cs & Hp & _ & _ & Hd).
    rewrite Hd. simpl.
    exists (dicta_row_of (py_str E (call_id_of r)) now p). repeat split.
    + apply in_or_app. right. left. reflexivity.
    + exact (prepare_sentiment E r p Hp).
  - repeat split.
    + unfold sentiment_of, sentiment_raw_of, dget_or. intros ->. reflexivity.
    + unfold sentiment_raw_of, dget_or. intros kv ->. reflexivity.
    + unfold sentiment_raw_of, dget_or. intros v -> Hv.
      destruct v; try reflexivity. exfalso. eapply Hv. reflexivity.
    + apply sentiment_map_get_range.
    + apply sentiment_map_get_other.
    + intros z. unfold sentiment_of_raw, py_truthy, py_int_num.
      destruct (z =? 0); reflexivity.
    + intros q. unfold sentiment_of_raw, py_truthy, py_int_num.
      destruct (Qeq_bool q 0); reflexivity.
    + intros Hraw. apply write_ml_result_sentiment_raises.
      unfold sentiment_of.
      destruct Hraw as [(v & l & ->)|(kv & l & ->)]; reflexivity.
Qed.

(** Claim C5 fails: a numeric sentiment of 7 is stored as 7. *)
Lemma sentiment_seven_stored :
  let r := [("callId", JStr "CALL003"); ("sentiment", JInt 7)] in
  snd (write_ml_result sample_env 0 empty_service r) = true /\
  map dc_sentiment (dicta_call_summary (oracle (fst (write_ml_result sample_env 0 empty_service r))))
    = [7].
Proof. vm_compute. split; reflexivity. Qed.

(** ** C6: churn score *)

Lemma summary_row_of_churn (E : Env) (now : Z) (tag key : string) (r : payload)
    (p : prepared) (srow : conv_summary_row) :
  summary_row_of E now tag key r p = Some srow ->
  churn_score_of r = Some (cs_churn_score srow) /\
  cs_source_type srow = tag /\ cs_source_id srow = key.
Proof.
  unfold summary_row_of.
  destruct (churn_score_of r) as [c|]; [|discriminate].
  destruct (source_row E now (lookup_table_for tag) key) as [[[b s] t]|];
    intros H; injection H as <-; auto.
Qed.

Lemma churn_score_of_spec (r : payload) :
  churn_score_of r =
  option_map (fun x => (x * 100)%Q) (py_num (dget_or r "churn_confidence" (JFloat 0))).
Proof.
  unfold churn_score_of.
  destruct (dget_or r "churn_confidence" (JFloat 0)) as [| [] | | | | |]; reflexivity.
Qed.

(** Claim C6 (as amended): a successful write stores in CONVERSATION_SUMMARY,
    under its (source type, source id) key, the churn score
    [churn_confidence * 100] with no clamp ([churn_confidence] defaults to
    0; a value that is not a number makes the write fail). The score lies
    in [0, 100] exactly when the confidence lies in [0, 1]. *)
Theorem churn_score_stored (E : Env) (now : Z) (st st' : service) (r : payload)
    (Hok : write_ml_result E now st r = (st', true)) :
  let key := py_str E (call_id_of r) in
  let tag := match pending_source_types st !! key with Some t => t | None => "CALL" end in
  (exists x row,
     py_num (dget_or r "churn_confidence" (JFloat 0)) = Some x /\
     In row (conversation_summary (oracle st')) /\
     cs_source_type row = tag /\ cs_source_id row = key /\
     cs_churn_score row = (x * 100)%Q /\
     ((0 <= x <= 1)%Q <-> (0 <= cs_churn_score row <= 100)%Q)) /\
  (dget r "churn_confidence" = None -> churn_score_of r = Some 0%Q).
Proof.
  intros key tag. split.
  - apply write_ml_result_ok in Hok as [_ Hw].
    apply write_result_rows_ok in Hw as (p & srow & cs & _ & Hs & _ & Hd).
    apply summary_row_of_churn in Hs as (Hc & Ht & Hk).
    rewrite churn_score_of_spec in Hc.
    destruct (py_num (dget_or r "churn_confidence" (JFloat 0))) as [x|]; [|discriminate].
    injection Hc as Hc.
    exists x, srow. rewrite Hd. simpl.
    split; [reflexivity|]. split; [apply in_or_app; right; left; reflexivity|].
    split; [exact Ht|]. split; [exact Hk|]. split; [symmetry; exact Hc|].
    rewrite <- Hc. split.
    + intros [H0 H1]. split.
      * apply (Qmult_le_compat_r 0 x 100) in H0; [|discriminate]. exact H0.
      * apply (Qmult_le_compat_r x 1 100) in H1; [|discriminate]. exact H1.
    + intros [H0 H1]. split.
      * apply (proj1 (Qmult_le_r 0 x 100 ltac:(reflexivity))). exact H0.
      * apply (proj1 (Qmult_le_r x 1 100 ltac:(reflexivity))). exact H1.
  - unfold churn_score_of, dget_or. intros ->. reflexivity.
Qed.

(** Claim C6 fails: a churn confidence of 1.5 is stored as 150, above 100. *)
Lemma churn_score_above_hundred :
  let r := [("callId", JStr "CALL004"); ("churn_confidence", JFloat (3 # 2))] in
  snd (write_ml_result sample_env 0 empty_service r) = true /\
  map (fun x => Qeq_bool (cs_churn_score x) 150)
    (conversation_summary (oracle (fst (write_ml_result sample_env 0 empty_service r))))
    = [true].
Proof. vm_compute. split; reflexivity. Qed.

(** ** C3: dispatch *)




Lemma log_error_rows (log_ok : bool) (call_id err kind : string) (d : db) :
  cdc_processed_calls (log_error log_ok call_id err kind d) = cdc_processed_calls d /\
  error_log (log_error log_ok call_id err kind d) =
    error_log d ++ (if log_ok then [mkErrorRow call_id err kind] else []).
Proof.
  unfold log_error. destruct log_ok; simpl; [auto|]. rewrite app_nil_r. auto.
Qed.



(** ** C2: assembly gating *)

(** Claim C2 (code divergence): on sixteen VERINT fragments covering
    channels A and C whose texts are all blank, the CDC assembler emits a
    conversation with no message at all, although no fragment has
    non-empty text; the backfill assembler returns no conversation on the
    same rows. *)
Theorem assemble_emits_without_text :
  (forall f, In f blank_fragments -> has_text f = false) /\
  option_map cv_messages (assemble_conversation_for_source 0 "CALL900" "verint" blank_fragments)
    = Some [] /\
  option_map cv_message_count
    (assemble_conversation_for_source 0 "CALL900" "verint" blank_fragments) = Some 0%nat /\
  backfill_assemble_conversation 0 "CALL900" blank_fragments = None.
Proof.
  split.
  - intros f Hf. unfold blank_fragments in Hf. apply in_map_iff in Hf as [i [<- _]].
    reflexivity.
  - vm_compute. repeat split.
Qed.

(** ** C9: reject *)

(** Claim C9 (code divergence): [api_ml_reject] has no PENDING guard. Its
    UPDATE matches on the id only, so a recommendation in any status, in
    particular APPROVED, answers 200 and becomes REJECTED with the note
    recorded, whereas [api_ml_approve] selects PENDING rows only. *)
Theorem reject_without_pending_guard (E : Env) (s : recommendation_status)
    (t : string) (details : json) (ab : option json) (aa : option Z) (n : option string)
    (objs : list (string * json)) (q : list json) :
  let st := mkMlState objs [mkRecommendation "R1" t details s ab aa n] q in
  let out := api_ml_reject E [("rec_id", JStr "R1"); ("reason", JStr "late")] true st in
  resp_code (snd out) = 200%nat /\
  recommendations (fst out) =
    [mkRecommendation "R1" t details REJECTED ab aa
       (Some ("Rejected by " +:+ py_str E (JStr "dashboard_user") +:+ ": "
              +:+ py_str E (JStr "late"))%string)] /\
  resp_code (snd (api_ml_approve 0 [("rec_id", JStr "R1")] true
                    (mkMlState objs [mkRecommendation "R1" t details APPROVED ab aa n] q)))
    = 404%nat.
Proof.
  intros st out. subst st out. split; [reflexivity|]. split; reflexivity.
Qed.

(** ** C8: approval isolation *)

Lemma find_key_filter_other (k key : string) (objs : list (string * json)) :
  k <> key ->
  find (fun p => String.eqb p.1 k) (List.filter (fun p => negb (String.eqb p.1 key)) objs) =
  find (fun p => String.eqb p.1 k) objs.
Proof.
  intros Hk. induction objs as [|[a v] objs IH]; [reflexivity|]. simpl.
  destruct (String.eqb a key) eqn:Ha; simpl.
  - apply String.eqb_eq in Ha. subst a.
    destruct (String.eqb key k) eqn:Hkk; [apply String.eqb_eq in Hkk; congruence|]. exact IH.
  - destruct (String.eqb a k); [reflexivity|]. exact IH.
Qed.

(** [s3_update key] leaves every other object as it was. *)
Lemma s3_update_frame (key : string) (f : json -> option json) (objs objs' : list (string * json)) :
  s3_update key f objs = Some objs' ->
  forall k, k <> key ->
  find (fun p => String.eqb p.1 k) objs' = find (fun p => String.eqb p.1 k) objs.
Proof.
  unfold s3_update.
  destruct (find _ objs) as [[k0 cfg]|]; [|discriminate].
  destruct (f cfg) as [cfg'|]; [|discriminate].
  intros H; injection H as <-. intros k Hk. simpl.
  destruct (String.eqb key k) eqn:Hkk; [apply String.eqb_eq in Hkk; congruence|].
  apply find_key_filter_other. exact Hk.
Qed.

(** What [api_ml_approve] can change: the two config objects and the
    APPROVED marking of the rows with the requested id; the reload queue
    never. *)
Lemma api_ml_approve_frame (now : Z) (data : payload) (db_ok : bool) (st : ml_state) :
  let st' := fst (api_ml_approve now data db_ok st) in
  reload_queue st' = reload_queue st /\
  (forall k, k <> KEYWORDS_KEY -> k <> CLASSIFICATIONS_KEY ->
     find (fun p => String.eqb p.1 k) (s3_objects st') =
     find (fun p => String.eqb p.1 k) (s3_objects st)) /\
  (recommendations st' = recommendations st \/
   exists id approver, recommendations st' = map (mark_approved now id approver) (recommendations st)).
Proof.
  intros st'. subst st'. unfold api_ml_approve.
  destruct (negb (py_truthy (dget_or data "rec_id" JNull))); [simpl; auto|].
  destruct (dget_or data "rec_id" JNull) as [| | | |id| |]; try (simpl; auto; fail).
  destruct (find _ (recommendations st)) as [r|]; [|simpl; auto].
  destruct (if String.eqb (rec_type r) "churn_keywords" then _ else _) as [objs|] eqn:Hobjs;
    [|simpl; auto].
  assert (Hframe : forall k, k <> KEYWORDS_KEY -> k <> CLASSIFICATIONS_KEY ->
            find (fun p => String.eqb p.1 k) objs = find (fun p => String.eqb p.1 k) (s3_objects st)).
  { intros k Hk1 Hk2.
    destruct (String.eqb (rec_type r) "churn_keywords");
      [apply (s3_update_frame _ _ _ _ Hobjs); exact Hk1|].
    destruct (String.eqb (rec_type r) "churn_threshold");
      [apply (s3_update_frame _ _ _ _ Hobjs); exact Hk2|].
    injection Hobjs as <-. reflexivity. }
  destruct db_ok; simpl; split; auto; split; auto.
  right. eexists _, _. reflexivity.
Qed.

(** Claim C8: [api_ml_approve] never adds to the reload queue; it changes
    only the config objects of the store and the recommendation rows of
    the requested id. [api_ml_apply] leaves the object store and the
    recommendations as they are, does not depend on the store, and when
    its send succeeds adds exactly one reload message to the queue
    (answering 200); when the send fails nothing changes (answer 500). *)
Theorem approval_isolation (now : Z) (data : payload) (db_ok send_ok : bool)
    (st : ml_state) (objs : list (string * json)) :
  let approved := fst (api_ml_approve now data db_ok st) in
  let applied := api_ml_apply now data send_ok st in
  (reload_queue approved = reload_queue st /\
   (forall k, k <> KEYWORDS_KEY -> k <> CLASSIFICATIONS_KEY ->
      find (fun p => String.eqb p.1 k) (s3_objects approved) =
      find (fun p => String.eqb p.1 k) (s3_objects st)) /\
   (recommendations approved = recommendations st \/
    exists id approver,
      recommendations approved = map (mark_approved now id approver) (recommendations st))) /\
  (s3_objects (fst applied) = s3_objects st /\
   recommendations (fst applied) = recommendations st /\
   reload_queue (fst applied) =
     reload_queue st ++
     (if send_ok
      then [reload_message (dget_or data "triggered_by" (JStr "dashboard_user")) now]
      else []) /\
   resp_code (snd applied) = (if send_ok then 200 else 500)%nat /\
   snd (api_ml_apply now data send_ok
          (mkMlState objs (recommendations st) (reload_queue st))) = snd applied /\
   reload_queue (fst (api_ml_apply now data send_ok
                        (mkMlState objs (recommendations st) (reload_queue st))))
     = reload_queue (fst applied)).
Proof.
  intros approved applied. subst approved applied. split.
  - apply api_ml_approve_frame.
  - unfold api_ml_apply. destruct send_ok; simpl.
    + repeat split.
    + rewrite app_nil_r. repeat split.
Qed.

(** ** C10: the pending entry is consumed by the first attempt *)

Lemma cdc_run_keeps_absent (E : Env) (key : string) (ops : list cdc_op) :
  forall st,
  pending_source_types st !! key = None ->
  forallb (fun op => negb (dispatches_key key op)) ops = true ->
  pending_source_types (cdc_run E st ops) !! key = None.
Proof.
  unfold cdc_run. induction ops as [|op ops IH]; intros st Hst Hops; [exact Hst|].
  simpl in Hops. apply andb_prop in Hops as [Hop Hops]. simpl.
  apply IH; [|exact Hops].
  destruct op as [now r|sent mark log_ok conv sid]; simpl.
  - rewrite write_ml_result_unfold. simpl.
    destruct (decide (py_str E (call_id_of r) = key)) as [<-|Hne].
    + apply lookup_delete_eq.
    + rewrite lookup_delete_ne by exact Hne. exact Hst.
  - simpl in Hop. apply negb_true_iff, String.eqb_neq in Hop.
    unfold send_to_sqs_for_source.
    destruct sent as [m|err]; [|exact Hst].
    destruct (source_of sid) as [src|]; [|exact Hst].
    unfold mark_call_processed_for_source. destruct (mark_raises mark); simpl;
      rewrite lookup_insert_ne by exact Hop; exact Hst.
Qed.

(** Claim C10: [write_ml_result] removes the pending entry of the call id
    before any write, whether the writes then succeed or fail. After that
    attempt, as long as nothing dispatches the same id again, every later
    attempt with the same id finds no entry and writes under the default
    tag ['CALL'], whatever tag was recorded at dispatch. *)
Theorem redelivery_tag_defaults (E : Env) (now now' : Z) (st : service) (r r' : payload)
    (ops : list cdc_op)
    (Hkey : py_str E (call_id_of r') = py_str E (call_id_of r))
    (Hops : forallb (fun op => negb (dispatches_key (py_str E (call_id_of r)) op)) ops = true) :
  let key := py_str E (call_id_of r) in
  let st2 := cdc_run E (fst (write_ml_result E now st r)) ops in
  pending_source_types (fst (write_ml_result E now st r)) = delete key (pending_source_types st) /\
  pending_source_types st2 !! key = None /\
  write_ml_result E now' st2 r' =
    (mkService (delete key (pending_source_types st2))
       (fst (write_result_rows E now' "CALL" key r' (oracle st2))),
     snd (write_result_rows E now' "CALL" key r' (oracle st2))).
Proof.
  intros key st2.
  assert (Hfirst : pending_source_types (fst (write_ml_result E now st r)) =
                   delete key (pending_source_types st)).
  { rewrite write_ml_result_unfold. reflexivity. }
  assert (Habs : pending_source_types st2 !! key = None).
  { apply cdc_run_keeps_absent; [|exact Hops].
    rewrite Hfirst. apply lookup_delete_eq. }
  split; [exact Hfirst|]. split; [exact Habs|].
  rewrite write_ml_result_unfold. rewrite Hkey. fold key. rewrite Habs. reflexivity.
Qed.

(** ** C7: alert history *)

Lemma count_active_app (aid : string) (l1 l2 : list alert_history) :
  count_active aid (l1 ++ l2) = (count_active aid l1 + count_active aid l2)%nat.
Proof. unfold count_active. rewrite List.filter_app, length_app. reflexivity. Qed.

(** A row-wise update that never turns a row into an ACTIVE row of [aid]
    does not raise the number of ACTIVE rows of [aid]. *)
Lemma count_active_map_le (aid : string) (g : alert_history -> alert_history)
    (hist : list alert_history) :
  (forall h, String.eqb (h_alert_id (g h)) aid && alert_status_eqb (h_status (g h)) ACTIVE = true ->
             String.eqb (h_alert_id h) aid && alert_status_eqb (h_status h) ACTIVE = true) ->
  (count_active aid (map g hist) <= count_active aid hist)%nat.
Proof.
  intros Hg. unfold count_active. induction hist as [|h hist IH]; [reflexivity|]. simpl.
  destruct (String.eqb (h_alert_id (g h)) aid && alert_status_eqb (h_status (g h)) ACTIVE) eqn:H1.
  - rewrite (Hg h H1). simpl. lia.
  - destruct (String.eqb (h_alert_id h) aid && alert_status_eqb (h_status h) ACTIVE);
      simpl; lia.
Qed.

Lemma acknowledge_alert_count (now : Z) (hid : nat) (by_ aid : string)
    (hist : list alert_history) :
  (count_active aid (acknowledge_alert now hid by_ hist) <= count_active aid hist)%nat.
Proof.
  apply count_active_map_le. intros h.
  destruct (Nat.eqb (h_history_id h) hid && alert_status_eqb (h_status h) ACTIVE); simpl;
    [rewrite andb_false_r; discriminate|auto].
Qed.

Lemma resolve_alert_count (now : Z) (hid : nat) (by_ notes aid : string)
    (hist : list alert_history) :
  (count_active aid (resolve_alert now hid by_ notes hist) <= count_active aid hist)%nat.
Proof.
  apply count_active_map_le. intros h.
  destruct (Nat.eqb (h_history_id h) hid
            && (alert_status_eqb (h_status h) ACTIVE || alert_status_eqb (h_status h) ACKNOWLEDGED));
    simpl; [rewrite andb_false_r; discriminate|auto].
Qed.

(** One evaluation whose count query succeeds keeps at most one ACTIVE row
    per configuration. *)
Lemma evaluate_alert_keeps_one (now : Z) (hist : list alert_history) (inp : alert_eval_input) :
  ai_count_query_ok inp = true ->
  (forall aid, count_active aid hist <= 1)%nat ->
  (forall aid, count_active aid (evaluate_alert now hist inp) <= 1)%nat.
Proof.
  intros Hq Hinv aid. unfold evaluate_alert. rewrite Hq.
  destruct (check_condition _ _ _); [|apply Hinv].
  destruct (Nat.eqb (count_active (alert_id (ai_config inp)) hist) 0) eqn:H0; [|apply Hinv].
  destruct (ai_insert_ok inp); [|apply Hinv].
  destruct (ai_value inp) as [v|]; [|apply Hinv].
  apply Nat.eqb_eq in H0. rewrite count_active_app.
  unfold count_active at 2. simpl.
  destruct (String.eqb (alert_id (ai_config inp)) aid) eqn:Ha; simpl.
  - apply String.eqb_eq in Ha. subst aid. rewrite H0. simpl. lia.
  - specialize (Hinv aid). lia.
Qed.

(** Evaluation only appends rows, all of them ACTIVE. *)
Lemma evaluate_all_alerts_appends (now : Z) (inputs : list alert_eval_input) :
  forall hist, exists fresh,
    evaluate_all_alerts now inputs hist = hist ++ fresh /\
    Forall (fun h => h_status h = ACTIVE) fresh.
Proof.
  unfold evaluate_all_alerts.
  induction inputs as [|inp inputs IH]; intros hist.
  - exists []. rewrite app_nil_r. auto.
  - simpl.
    assert (Hone : exists one, evaluate_alert now hist inp = hist ++ one /\
                               Forall (fun h => h_status h = ACTIVE) one).
    { unfold evaluate_alert. cbv zeta.
      repeat match goal with
             | |- context [if ?b then _ else _] => destruct b
             | |- context [match ai_value inp with Some _ => _ | None => _ end] =>
                 destruct (ai_value inp)
             end;
        first [solve [exists []; rewrite app_nil_r; auto]
              |eexists [_]; split; [reflexivity|constructor; [reflexivity|constructor]]]. }
    destruct Hone as [one [Hone Hf1]]. rewrite Hone.
    destruct (IH (hist ++ one)) as [more [Hmore Hf2]]. rewrite Hmore.
    exists (one ++ more). rewrite app_assoc. split; [reflexivity|].
    apply Forall_app. auto.
Qed.

Lemma evaluate_all_alerts_keeps_one (now : Z) (inputs : list alert_eval_input) :
  Forall (fun i => ai_count_query_ok i = true) inputs ->
  forall hist,
  (forall aid, count_active aid hist <= 1)%nat ->
  (forall aid, count_active aid (evaluate_all_alerts now inputs hist) <= 1)%nat.
Proof.
  unfold evaluate_all_alerts. intros Hall.
  induction Hall as [|inp inputs Hi Hrest IH]; intros hist Hinv; [exact Hinv|].
  simpl. apply IH. apply evaluate_alert_keeps_one; assumption.
Qed.

Lemma alert_run_keeps_one (ops : list alert_op) :
  forall hist,
  (forall aid, count_active aid hist <= 1)%nat ->
  Forall (fun op => match op with
                    | OpEvaluate _ inputs => Forall (fun i => ai_count_query_ok i = true) inputs
                    | _ => True
                    end) ops ->
  (forall aid, count_active aid (alert_run hist ops) <= 1)%nat.
Proof.
  unfold alert_run. induction ops as [|op ops IH]; intros hist Hinv Hops; [exact Hinv|].
  inversion Hops as [|? ? Hop Hrest]; subst. simpl. apply IH; [|exact Hrest].
  destruct op as [now inputs|now hid by_|now hid by_ notes]; simpl.
  - apply evaluate_all_alerts_keeps_one; assumption.
  - intros aid. specialize (Hinv aid).
    pose proof (acknowledge_alert_count now hid by_ aid hist). lia.
  - intros aid. specialize (Hinv aid).
    pose proof (resolve_alert_count now hid by_ notes aid hist). lia.
Qed.

(** Claim C7 (code divergence): the transitions hold as stated
    (acknowledge takes ACTIVE rows to ACKNOWLEDGED recording who and when,
    resolve takes ACTIVE or ACKNOWLEDGED rows to RESOLVED recording who,
    when and the notes, evaluation only appends ACTIVE rows) and at most
    one ACTIVE row per configuration is kept as long as every count query
    of the evaluator succeeds. But a failed count query reads as a count
    of 0, so a second evaluation of a configuration that already has an
    ACTIVE row inserts a duplicate: from an empty history two triggered
    evaluations, the second with its count query failing, leave two
    ACTIVE rows for the same configuration. *)
Theorem alert_duplicate_on_count_failure :
  let cfg := mkAlertConfig "X" "High churn" "gt" 5 "HIGH" in
  let inp ok := mkAlertEvalInput cfg (Some 10%Q) [] ok true in
  count_active "X" (alert_run [] [OpEvaluate 0 [inp true]; OpEvaluate 1 [inp true]]) = 1%nat /\
  count_active "X" (alert_run [] [OpEvaluate 0 [inp true]; OpEvaluate 1 [inp false]]) = 2%nat /\
  (forall hist ops,
     (forall aid, count_active aid hist <= 1)%nat ->
     Forall (fun op => match op with
                       | OpEvaluate _ inputs => Forall (fun i => ai_count_query_ok i = true) inputs
                       | _ => True
                       end) ops ->
     forall aid, (count_active aid (alert_run hist ops) <= 1)%nat) /\
  (forall now inputs hist, exists fresh,
     evaluate_all_alerts now inputs hist = hist ++ fresh /\
     Forall (fun h => h_status h = ACTIVE) fresh) /\
  (forall now hid by_ hist, exists g,
     acknowledge_alert now hid by_ hist = map g hist /\
     forall h, g h = h \/
       (h_history_id h = hid /\ h_status h = ACTIVE /\ h_status (g h) = ACKNOWLEDGED /\
        h_acknowledged_by (g h) = Some by_ /\ h_acknowledged_at (g h) = Some now)) /\
  (forall now hid by_ notes hist, exists g,
     resolve_alert now hid by_ notes hist = map g hist /\
     forall h, g h = h \/
       (h_history_id h = hid /\ (h_status h = ACTIVE \/ h_status h = ACKNOWLEDGED) /\
        h_status (g h) = RESOLVED /\ h_resolved_by (g h) = Some by_ /\
        h_resolved_at (g h) = Some now /\ h_resolution_notes (g h) = Some notes)).
Proof.
  intros cfg inp. split; [vm_compute; reflexivity|]. split; [vm_compute; reflexivity|].
  split; [intros hist ops; apply alert_run_keeps_one|].
  split; [intros now inputs hist; apply evaluate_all_alerts_appends|]. split.
  - intros now hid by_ hist. eexists. split; [reflexivity|]. intros h. cbv beta.
    destruct (Nat.eqb (h_history_id h) hid) eqn:Hid; simpl; [|auto].
    apply Nat.eqb_eq in Hid.
    destruct (h_status h) eqn:Hs; simpl; auto. right. auto 6.
  - intros now hid by_ notes hist. eexists. split; [reflexivity|]. intros h. cbv beta.
    destruct (Nat.eqb (h_history_id h) hid) eqn:Hid; simpl; [|auto].
    apply Nat.eqb_eq in Hid.
    destruct (h_status h) eqn:Hs; simpl; auto; right; auto 8.
Qed.

(** ** C1: redelivery of a result *)

Lemma filter_idem {A} (p : A -> bool) (l : list A) :
  List.filter p (List.filter p l) = List.filter p l.
Proof.
  induction l as [|a l IH]; [reflexivity|]. simpl.
  destruct (p a) eqn:Ha; simpl; [rewrite Ha; f_equal|]; exact IH.
Qed.

Lemma refilter {A} (p : A -> bool) (l rows : list A) :
  Forall (fun x => p x = false) rows ->
  List.filter p (List.filter p l ++ rows) = List.filter p l.
Proof.
  intros Hrows. rewrite List.filter_app, filter_idem.
  assert (Hnil : List.filter p rows = []).
  { induction Hrows as [|x rows Hx _ IH]; [reflexivity|]. simpl. rewrite Hx. exact IH. }
  rewrite Hnil. apply app_nil_r.
Qed.

Lemma dicta_row_keyed (key : string) (now : Z) (p : prepared) :
  Forall (fun x => negb (String.eqb (dc_call_id x) key) = false) [dicta_row_of key now p].
Proof. constructor; [simpl; rewrite String.eqb_refl; reflexivity|constructor]. Qed.

Lemma summary_row_keyed (E : Env) (now : Z) (tag key : string) (r : payload) (p : prepared)
    (srow : conv_summary_row) :
  summary_row_of E now tag key r p = Some srow ->
  Forall (fun x => not_key_summary tag key x = false) [srow].
Proof.
  intros Hs. apply summary_row_of_churn in Hs as (_ & Ht & Hk).
  constructor; [|constructor].
  unfold not_key_summary. rewrite Ht, Hk, !String.eqb_refl. reflexivity.
Qed.

Lemma category_rows_keyed (E : Env) (now : Z) (tag key : string) (cs : list json) :
  Forall (fun x => not_key_category tag key x = false) (map (category_row_of E tag key now) cs).
Proof.
  apply List.Forall_forall. intros x Hx. apply in_map_iff in Hx as [c [<- _]].
  unfold not_key_category, category_row_of. simpl. rewrite !String.eqb_refl. reflexivity.
Qed.

(** Any attempt, successful or not, touches only the rows of its own key
    in the three result tables, and nothing else. *)
Lemma write_result_rows_keyed_frame (E : Env) (now : Z) (tag key : string) (r : payload)
    (d : db) :
  let d' := fst (write_result_rows E now tag key r d) in
  List.filter (fun x => negb (String.eqb (dc_call_id x) key)) (dicta_call_summary d') =
  List.filter (fun x => negb (String.eqb (dc_call_id x) key)) (dicta_call_summary d) /\
  List.filter (not_key_summary tag key) (conversation_summary d') =
  List.filter (not_key_summary tag key) (conversation_summary d) /\
  List.filter (not_key_category tag key) (conversation_category d') =
  List.filter (not_key_category tag key) (conversation_category d) /\
  cdc_processed_calls d' = cdc_processed_calls d /\ error_log d' = error_log d.
Proof.
  intros d'. subst d'. unfold write_result_rows.
  destruct (prepare E r) as [p|]; [|simpl; auto].
  pose proof (dicta_row_keyed key now p) as Hd.
  destruct (negb (accepts_dicta E (dicta_row_of key now p))); [simpl; auto|].
  destruct (summary_row_of E now tag key r p) as [srow|] eqn:Hs.
  2: { simpl. rewrite (refilter _ _ _ Hd). auto. }
  pose proof (summary_row_keyed E now tag key r p srow Hs) as Hsk.
  destruct (negb (accepts_summary E srow)).
  { simpl. rewrite (refilter _ _ _ Hd). auto. }
  destruct (category_values E r (pr_classification p)) as [cs|].
  2: { simpl. rewrite (refilter _ _ _ Hd), (refilter _ _ _ Hsk). auto. }
  pose proof (category_rows_keyed E now tag key cs) as Hck.
  destruct (forallb _ _); simpl;
    rewrite (refilter _ _ _ Hd), (refilter _ _ _ Hsk), ?(refilter _ _ _ Hck); auto.
Qed.

Lemma redeliver_keyed_frame (E : Env) (tag key : string) (r : payload) (clocks : list Z) :
  forall d,
  let d' := redeliver E tag key r clocks d in
  List.filter (fun x => negb (String.eqb (dc_call_id x) key)) (dicta_call_summary d') =
  List.filter (fun x => negb (String.eqb (dc_call_id x) key)) (dicta_call_summary d) /\
  List.filter (not_key_summary tag key) (conversation_summary d') =
  List.filter (not_key_summary tag key) (conversation_summary d) /\
  List.filter (not_key_category tag key) (conversation_category d') =
  List.filter (not_key_category tag key) (conversation_category d) /\
  cdc_processed_calls d' = cdc_processed_calls d /\ error_log d' = error_log d.
Proof.
  induction clocks as [|t ts IH]; intros d d'; subst d'; simpl; [auto|].
  destruct (IH (fst (write_result_rows E t tag key r d))) as (F1 & F2 & F3 & F4 & F5).
  destruct (write_result_rows_keyed_frame E t tag key r d) as (G1 & G2 & G3 & G4 & G5).
  rewrite F1, F2, F3, F4, F5, G1, G2, G3, G4, G5. auto.
Qed.

Lemma filter_complement {A} (p q : A -> bool) (l rows : list A) :
  (forall x, p x = true -> q x = false) ->
  List.filter q (List.filter p l ++ rows) = List.filter q rows.
Proof.
  intros Hpq. rewrite List.filter_app.
  assert (Hnil : List.filter q (List.filter p l) = []).
  { induction l as [|a l IH]; [reflexivity|]. simpl.
    destruct (p a) eqn:Ha; simpl; [rewrite (Hpq a Ha)|]; exact IH. }
  rewrite Hnil. reflexivity.
Qed.

Lemma filter_all {A} (q : A -> bool) (rows : list A) :
  Forall (fun x => q x = true) rows -> List.filter q rows = rows.
Proof.
  intros H. induction H as [|x rows Hx _ IH]; [reflexivity|]. simpl. rewrite Hx, IH. reflexivity.
Qed.

(** The summary row does not depend on the clock beyond its CREATION_DATE,
    once the source row looked up is the same. *)
Lemma summary_row_of_clock (E : Env) (t t1 : Z) (tag key : string) (r : payload)
    (p : prepared) (srow srow1 : conv_summary_row) :
  summary_row_of E t tag key r p = Some srow ->
  summary_row_of E t1 tag key r p = Some srow1 ->
  source_row E t (lookup_table_for tag) key = source_row E t1 (lookup_table_for tag) key ->
  strip_summary srow = strip_summary srow1.
Proof.
  unfold summary_row_of. intros Hs Hs1 Hsrc. rewrite Hsrc in Hs.
  destruct (churn_score_of r) as [c|]; [|discriminate].
  destruct (source_row E t1 (lookup_table_for tag) key) as [[[b s] ct]|];
    injection Hs as <-; injection Hs1 as <-; reflexivity.
Qed.

(** Claim C1 (as amended): let a result be applied with a fixed source type
    (the writes [write_ml_result] performs under its derived tag) and
    succeed once at clock [t1], then be delivered again any number of
    times, each attempt succeeding or failing, and finally succeed at clock
    [t]. Provided the source row looked up for BAN, SUBSCRIBER_NO and the
    conversation time is the same at [t] as at [t1], the final state equals
    the state after the first success except for the apply-time columns
    (PROCESSED_AT, CREATION_DATE), and equals it exactly when [t = t1]. The
    final state holds exactly one DICTA_CALL_SUMMARY row for the call id,
    exactly one CONVERSATION_SUMMARY row for the (source type, source id)
    key, and one CONVERSATION_CATEGORY row for each value of the
    deduplicated list of non-empty classifications. *)
Theorem ingest_redelivery_stable (E : Env) (tag key : string) (r : payload)
    (d0 d1 d' : db) (t1 t : Z) (clocks : list Z)
    (H1 : write_result_rows E t1 tag key r d0 = (d1, true))
    (Hk : write_result_rows E t tag key r (redeliver E tag key r clocks d1) = (d', true))
    (Hsrc : source_row E t (lookup_table_for tag) key = source_row E t1 (lookup_table_for tag) key) :
  strip_times d' = strip_times d1 /\
  (t = t1 -> d' = d1) /\
  (exists p srow cs,
     List.filter (fun x => String.eqb (dc_call_id x) key) (dicta_call_summary d') =
       [dicta_row_of key t p] /\
     List.filter (fun x => negb (not_key_summary tag key x)) (conversation_summary d') = [srow] /\
     category_values E r (pr_classification p) = Some cs /\
     List.filter (fun x => negb (not_key_category tag key x)) (conversation_category d') =
       map (category_row_of E tag key t) cs).
Proof.
  destruct (redeliver_keyed_frame E tag key r clocks d1) as (F1 & F2 & F3 & F4 & F5).
  set (dp := redeliver E tag key r clocks d1) in *. clearbody dp.
  apply write_result_rows_ok in H1 as (p & srow1 & cs & Hp & Hs1 & Hc & Hd1).
  apply write_result_rows_ok in Hk as (p' & srow & cs' & Hp' & Hs & Hc' & Hd').
  rewrite Hp in Hp'. injection Hp' as <-. rewrite Hc in Hc'. injection Hc' as <-.
  pose proof (dicta_row_keyed key t1 p) as Kd1.
  pose proof (summary_row_keyed E t1 tag key r p srow1 Hs1) as Ks1.
  pose proof (category_rows_keyed E t1 tag key cs) as Kc1.
  assert (G1 : List.filter (fun x => negb (String.eqb (dc_call_id x) key)) (dicta_call_summary dp) =
               List.filter (fun x => negb (String.eqb (dc_call_id x) key)) (dicta_call_summary d0)).
  { rewrite F1, Hd1. simpl. apply refilter. exact Kd1. }
  assert (G2 : List.filter (not_key_summary tag key) (conversation_summary dp) =
               List.filter (not_key_summary tag key) (conversation_summary d0)).
  { rewrite F2, Hd1. simpl. apply refilter. exact Ks1. }
  assert (G3 : List.filter (not_key_category tag key) (conversation_category dp) =
               List.filter (not_key_category tag key) (conversation_category d0)).
  { rewrite F3, Hd1. simpl. apply refilter. exact Kc1. }
  assert (G4 : cdc_processed_calls dp = cdc_processed_calls d0) by (rewrite F4, Hd1; reflexivity).
  assert (G5 : error_log dp = error_log d0) by (rewrite F5, Hd1; reflexivity).
  split; [|split].
  - rewrite Hd', Hd1. unfold strip_times. simpl.
    rewrite G1, G2, G3, G4, G5, !map_app.
    cbn [map]. rewrite (summary_row_of_clock E t t1 tag key r p srow srow1 Hs Hs1 Hsrc).
    f_equal. rewrite !map_map. reflexivity.
  - intros ->. rewrite Hs in Hs1. injection Hs1 as <-.
    rewrite Hd', Hd1. unfold set_category, set_summary, set_dicta. simpl.
    rewrite G1, G2, G3, G4, G5. reflexivity.
  - exists p, srow, cs. rewrite Hd'. simpl. split; [|split; [|split]].
    + rewrite filter_complement.
      * simpl. rewrite String.eqb_refl. reflexivity.
      * intros x. destruct (String.eqb (dc_call_id x) key); auto.
    + rewrite filter_complement.
      * simpl. rewrite (proj1 (List.Forall_forall _ _)
                         (summary_row_keyed E t tag key r p srow Hs) srow (or_introl eq_refl)).
        reflexivity.
      * intros x Hx. rewrite Hx. reflexivity.
    + exact Hc.
    + rewrite filter_complement.
      * apply filter_all. apply List.Forall_forall. intros x Hx.
        rewrite (proj1 (List.Forall_forall _ _) (category_rows_keyed E t tag key cs) x Hx).
        reflexivity.
      * intros x Hx. rewrite Hx. reflexivity.
Qed.

(** Claim C1 fails as stated: two successful applies of the same result
    with the same source type, at clocks 1 and 2, leave different states,
    since PROCESSED_AT takes the clock of the apply. *)
Lemma redelivery_changes_processed_at :
  let st1 := fst (write_ml_result sample_env 1 empty_service s4_result) in
  let st2 := fst (write_ml_result sample_env 2 st1 s4_result) in
  snd (write_ml_result sample_env 1 empty_service s4_result) = true /\
  snd (write_ml_result sample_env 2 st1 s4_result) = true /\
  oracle st2 <> oracle st1.
Proof.
  intros st1 st2. split; [vm_compute; reflexivity|]. split; [vm_compute; reflexivity|].
  intros H. apply (f_equal (fun d => map dc_processed_at (dicta_call_summary d))) in H.
  vm_compute in H. discriminate H.
Qed.

(** ** Instances of the theorems with hypotheses *)

(** [sentiment_normalisation] on scenario S4, on the label
    POSITIVE followed by a no-break space (U+00A0), and on a result whose
    sentiment is a list. *)
Lemma sentiment_normalisation_witness :
  write_ml_result sample_env 0 empty_service s4_result =
    (fst (write_ml_result sample_env 0 empty_service s4_result), true) /\
  (exists row,
    In row (dicta_call_summary (oracle (fst (write_ml_result sample_env 0 empty_service s4_result)))) /\
    dc_call_id row = py_str sample_env (call_id_of s4_result) /\
    sentiment_of sample_env s4_result = Some (dc_sentiment row)) /\
  sentiment_of_raw sample_env (JStr (str_of_codes [80; 79; 83; 73; 84; 73; 86; 69; 194; 160]%nat))
    = Some 4 /\
  write_ml_result sample_env 0 empty_service
    [("callId", JStr "CALL005"); ("sentiment", JArr [JStr "positive"])] =
    (empty_service, false).
Proof.
  assert (Hok : write_ml_result sample_env 0 empty_service s4_result =
                (fst (write_ml_result sample_env 0 empty_service s4_result), true))
    by (vm_compute; reflexivity).
  split; [exact Hok|]. split.
  - exact (proj1 (sentiment_normalisation sample_env 0 empty_service s4_result) _ Hok).
  - split.
    + rewrite (proj1 (proj2 (proj2 (proj2 (proj2 (proj2
                 (sentiment_normalisation sample_env 0 empty_service s4_result))))))).
      vm_compute. reflexivity.
    + set (r := [("callId", JStr "CALL005"); ("sentiment", JArr [JStr "positive"])]).
      rewrite (proj2 (proj2 (proj2 (proj2 (proj2 (proj2 (proj2 (proj2 (proj2 (proj2 (proj2
                 (proj2 (proj2 (proj2 (proj2 (proj2 (proj2 (proj2 (proj2 (proj2
                 (sentiment_normalisation sample_env 0 empty_service r))))))))))))))))))))).
      * vm_compute. reflexivity.
      * left. exists (JStr "positive"), []. reflexivity.
Defined.

(** [churn_score_stored] on scenario S4 (churn confidence 0.82). *)
Lemma churn_score_stored_witness :
  write_ml_result sample_env 0 empty_service s4_result =
    (fst (write_ml_result sample_env 0 empty_service s4_result), true) /\
  exists x row,
    py_num (dget_or s4_result "churn_confidence" (JFloat 0)) = Some x /\
    In row (conversation_summary
              (oracle (fst (write_ml_result sample_env 0 empty_service s4_result)))) /\
    cs_churn_score row = (x * 100)%Q.
Proof.
  assert (Hok : write_ml_result sample_env 0 empty_service s4_result =
                (fst (write_ml_result sample_env 0 empty_service s4_result), true))
    by (vm_compute; reflexivity).
  split; [exact Hok|].
  destruct (proj1 (churn_score_stored sample_env 0 empty_service _ s4_result Hok))
    as (x & row & Hx & Hin & _ & _ & Hc & _).
  exists x, row. split; [exact Hx|]. split; [exact Hin|]. exact Hc.
Defined.

(** [redelivery_tag_defaults]: a result for CALL001, dispatched as WAPP,
    fails on its first attempt; the entry is gone afterwards. *)
Lemma redelivery_tag_defaults_witness :
  py_str sample_env (call_id_of s4_result) =
    py_str sample_env (call_id_of [("callId", JStr "CALL001"); ("sentiment", JArr [JInt 1])]) /\
  snd (write_ml_result sample_env 0 (mkService (<["CALL001" := "WAPP"]> ∅) empty_db)
         [("callId", JStr "CALL001"); ("sentiment", JArr [JInt 1])]) = false /\
  pending_source_types
    (cdc_run sample_env
       (fst (write_ml_result sample_env 0 (mkService (<["CALL001" := "WAPP"]> ∅) empty_db)
               [("callId", JStr "CALL001"); ("sentiment", JArr [JInt 1])])) [])
    !! py_str sample_env (call_id_of [("callId", JStr "CALL001"); ("sentiment", JArr [JInt 1])])
    = None.
Proof.
  assert (Hkey : py_str sample_env (call_id_of s4_result) =
                 py_str sample_env (call_id_of [("callId", JStr "CALL001");
                                                ("sentiment", JArr [JInt 1])]))
    by reflexivity.
  assert (Hops : forallb (fun op => negb (dispatches_key
                   (py_str sample_env (call_id_of [("callId", JStr "CALL001");
                                                   ("sentiment", JArr [JInt 1])])) op)) [] = true)
    by reflexivity.
  split; [exact Hkey|]. split; [vm_compute; reflexivity|].
  exact (proj1 (proj2 (redelivery_tag_defaults sample_env 0 1
                         (mkService (<["CALL001" := "WAPP"]> ∅) empty_db)
                         [("callId", JStr "CALL001"); ("sentiment", JArr [JInt 1])]
                         s4_result [] Hkey Hops))).
Defined.

(** [ingest_redelivery_stable] on scenario S4: success at clock 1, one
    more attempt at clock 2, success at clock 3. *)
Lemma ingest_redelivery_stable_witness :
  write_result_rows sample_env 1 "CALL" "CALL001" s4_result empty_db =
    (fst (write_result_rows sample_env 1 "CALL" "CALL001" s4_result empty_db), true) /\
  write_result_rows sample_env 3 "CALL" "CALL001" s4_result
    (redeliver sample_env "CALL" "CALL001" s4_result [2]
       (fst (write_result_rows sample_env 1 "CALL" "CALL001" s4_result empty_db))) =
    (fst (write_result_rows sample_env 3 "CALL" "CALL001" s4_result
            (redeliver sample_env "CALL" "CALL001" s4_result [2]
               (fst (write_result_rows sample_env 1 "CALL" "CALL001" s4_result empty_db)))),
     true) /\
  strip_times (fst (write_result_rows sample_env 3 "CALL" "CALL001" s4_result
                      (redeliver sample_env "CALL" "CALL001" s4_result [2]
                         (fst (write_result_rows sample_env 1 "CALL" "CALL001" s4_result
                                 empty_db))))) =
  strip_times (fst (write_result_rows sample_env 1 "CALL" "CALL001" s4_result empty_db)).
Proof.
  assert (H1 : write_result_rows sample_env 1 "CALL" "CALL001" s4_result empty_db =
               (fst (write_result_rows sample_env 1 "CALL" "CALL001" s4_result empty_db), true))
    by (vm_compute; reflexivity).
  assert (Hk : write_result_rows sample_env 3 "CALL" "CALL001" s4_result
                 (redeliver sample_env "CALL" "CALL001" s4_result [2]
                    (fst (write_result_rows sample_env 1 "CALL" "CALL001" s4_result empty_db))) =
               (fst (write_result_rows sample_env 3 "CALL" "CALL001" s4_result
                       (redeliver sample_env "CALL" "CALL001" s4_result [2]
                          (fst (write_result_rows sample_env 1 "CALL" "CALL001" s4_result
                                  empty_db)))), true))
    by (vm_compute; reflexivity).
  assert (Hsrc : source_row sample_env 3 (lookup_table_for "CALL") "CALL001" =
                 source_row sample_env 1 (lookup_table_for "CALL") "CALL001")
    by reflexivity.
  split; [exact H1|]. split; [exact Hk|].
  exact (proj1 (ingest_redelivery_stable sample_env "CALL" "CALL001" s4_result empty_db _ _ 1 3
                  [2] H1 Hk Hsrc)).
Defined.

(* ===================================================================== *)
(** ** The text cleaners *)
(* ===================================================================== *)




Lemma drop_spaces_fuel_suffix (fuel : nat) (len : list ascii -> nat) (l : list ascii) :
  exists p, l = p ++ drop_spaces_fuel fuel len l.
Proof.
  revert l. induction fuel as [|f IH]; intros l; simpl.
  - exists []. reflexivity.
  - destruct (len l) as [|k].
    + exists []. reflexivity.
    + destruct (IH (skipn (S k) l)) as [p Hp]. exists (firstn (S k) l ++ p).
      rewrite <- app_assoc, <- Hp. symmetry. apply firstn_skipn.
Qed.

Lemma drop_spaces_suffix (len : list ascii -> nat) (l : list ascii) :
  exists p, l = p ++ drop_spaces len l.
Proof. apply drop_spaces_fuel_suffix. Qed.


(** Stripping keeps a contiguous part of the string. *)
Lemma str_strip_infix (s : string) :
  exists p q, list_ascii_of_string s = p ++ list_ascii_of_string (str_strip s) ++ q.
Proof.
  unfold str_strip. rewrite list_ascii_of_string_of_list_ascii.
  set (l := list_ascii_of_string s).
  destruct (drop_spaces_suffix space_len_front l) as [p Hp].
  destruct (drop_spaces_suffix space_len_back (rev (drop_spaces space_len_front l))) as [q Hq].
  exists p, (rev q).
  rewrite Hp at 1. f_equal.
  set (m := rev (drop_spaces space_len_front l)) in *.
  assert (Hm : drop_spaces space_len_front l = rev m) by (unfold m; now rewrite rev_involutive).
  rewrite Hm. rewrite Hq at 1. now rewrite rev_app_distr.
Qed.


Lemma str_strip_chars (s : string) (x : ascii) :
  In x (list_ascii_of_string (str_strip s)) -> In x (list_ascii_of_string s).
Proof.
  destruct (str_strip_infix s) as (p & q & H). rewrite H.
  intros Hx. apply in_or_app. right. apply in_or_app. now left.
Qed.



Lemma list_ascii_of_string_app (a b : string) :
  list_ascii_of_string (a +:+ b) = list_ascii_of_string a ++ list_ascii_of_string b.
Proof. induction a as [|c a IH]; simpl; [reflexivity | now rewrite IH]. Qed.

Lemma no_bracket_chars_spec (s : string) :
  no_bracket_chars s = true <-> forall x, In x (list_ascii_of_string s) -> ~ In x BRACKET_CHARS.
Proof.
  unfold no_bracket_chars. rewrite forallb_forall. split.
  - intros H x Hx Hin. specialize (H x Hx). apply negb_true_iff in H.
    assert (existsb (Ascii.eqb x) BRACKET_CHARS = true) as Hc.
    { apply existsb_exists. exists x. split; [exact Hin | apply Ascii.eqb_refl]. }
    congruence.
  - intros H x Hx. apply negb_true_iff. destruct (existsb (Ascii.eqb x) BRACKET_CHARS) eqn:He;
      [|reflexivity].
    apply existsb_exists in He as [y [Hy Hxy]]. apply Ascii.eqb_eq in Hxy. subst y.
    exfalso. exact (H x Hx Hy).
Qed.

Lemma str_replace_char_chars (c x : ascii) (s : string) :
  In x (list_ascii_of_string (str_replace_char c s)) -> x <> c /\ In x (list_ascii_of_string s).
Proof.
  induction s as [|y s IH]; simpl; [tauto|].
  destruct (Ascii.eqb y c) eqn:Hy.
  - intros H. destruct (IH H). split; [assumption | now right].
  - simpl. intros [<-|H].
    + split; [|now left]. intros ->. now rewrite Ascii.eqb_refl in Hy.
    + destruct (IH H). split; [assumption | now right].
Qed.

Lemma remove_bracket_chars_chars (s : string) (x : ascii) :
  In x (list_ascii_of_string (remove_bracket_chars s)) ->
  ~ In x BRACKET_CHARS /\ In x (list_ascii_of_string s).
Proof.
  unfold remove_bracket_chars, BRACKET_CHARS. simpl fold_left. intros H.
  repeat match goal with
  | H : In x (list_ascii_of_string (str_replace_char _ _)) |- _ =>
      apply str_replace_char_chars in H as [? H]
  end.
  split; [|exact H]. simpl. intuition congruence.
Qed.

Lemma remove_bracket_chars_clean (s : string) : no_bracket_chars (remove_bracket_chars s) = true.
Proof. apply no_bracket_chars_spec. intros x Hx. now apply remove_bracket_chars_chars in Hx. Qed.

Lemma no_bracket_chars_strip (s : string) :
  no_bracket_chars s = true -> no_bracket_chars (str_strip s) = true.
Proof.
  rewrite !no_bracket_chars_spec. intros H x Hx. apply H. now apply str_strip_chars.
Qed.

Lemma no_bracket_chars_app (a b : string) :
  no_bracket_chars a = true -> no_bracket_chars b = true -> no_bracket_chars (a +:+ b) = true.
Proof.
  unfold no_bracket_chars. rewrite list_ascii_of_string_app, forallb_app.
  intros -> ->. reflexivity.
Qed.

Lemma no_bracket_chars_join (l : list string) :
  Forall (fun s => no_bracket_chars s = true) l -> no_bracket_chars (str_join ", " l) = true.
Proof.
  induction l as [|a l IH]; intros H; [reflexivity|].
  inversion H as [|? ? Ha Hl]; subst.
  destruct l as [|b l']; [exact Ha|].
  change (no_bracket_chars (a +:+ ", " +:+ str_join ", " (b :: l')) = true).
  apply no_bracket_chars_app; [exact Ha|]. apply no_bracket_chars_app; [reflexivity|].
  now apply IH.
Qed.

Lemma str_split_chars (c x : ascii) (s piece : string) :
  In piece (str_split c s) -> In x (list_ascii_of_string piece) -> In x (list_ascii_of_string s).
Proof.
  revert piece; induction s as [|y s IH]; intros piece; simpl.
  - intros [<-|[]]. simpl. tauto.
  - destruct (Ascii.eqb y c).
    + intros [<-|Hp]; [simpl; tauto|]. intros Hx. right. exact (IH piece Hp Hx).
    + destruct (str_split c s) as [|p ps] eqn:Hs.
      * intros [<-|[]]. simpl. intros [->|[]]. now left.
      * intros [<-|Hp].
        -- simpl. intros [->|Hx]; [now left|]. right. apply (IH p); [now left|exact Hx].
        -- intros Hx. right. apply (IH piece); [now right|exact Hx].
Qed.

Lemma csv_of_list_clean (E : Env) (l : list json) :
  no_bracket_chars (Cleaners.csv_of_list E l) = true.
Proof.
  unfold Cleaners.csv_of_list. apply no_bracket_chars_join.
  apply List.Forall_forall. intros s Hs.
  apply filter_In in Hs as [Hs _]. apply in_map_iff in Hs as [x [<- _]].
  unfold Cleaners.clean_str. apply no_bracket_chars_strip, remove_bracket_chars_clean.
Qed.


(** Extra X2: [clean_json_to_csv] leaves none of the characters [ ] { } and
    the two quotes in its result when it is given a list, or a string that
    [json.loads] does not turn into a dict. *)
Theorem clean_json_to_csv_no_brackets (E : Env) (json_loads : string -> option json)
    (value : json)
    (Hshape : (exists l, value = JArr l) \/
              (exists s, value = JStr s /\ forall kv, json_loads (str_strip s) <> Some (JObj kv))) :
  no_bracket_chars (Cleaners.clean_json_to_csv E json_loads value) = true.
Proof.
  unfold Cleaners.clean_json_to_csv.
  destruct (negb (py_truthy value)); [reflexivity|].
  destruct Hshape as [[l ->]|[s [-> Hs]]]; [apply csv_of_list_clean|].
  cbv zeta. destruct (json_loads (str_strip s)) as [p|] eqn:Hp.
  1: destruct p as [| | | | |l|kv]; try apply csv_of_list_clean;
     try (exfalso; exact (Hs _ eq_refl)).
  all: apply no_bracket_chars_join; apply List.Forall_forall; intros piece Hpiece;
       apply filter_In in Hpiece as [Hpiece _]; apply in_map_iff in Hpiece as [pc [<- Hpc]];
       apply no_bracket_chars_strip; apply no_bracket_chars_spec; intros x Hx;
       apply (str_split_chars _ x _ pc Hpc) in Hx;
       now apply remove_bracket_chars_chars in Hx.
Qed.

Lemma clean_json_to_csv_no_brackets_witness :
  no_bracket_chars (Cleaners.clean_json_to_csv sample_env (fun _ => None)
                      (JStr "[a], {b}")) = true.
Proof.
  apply (clean_json_to_csv_no_brackets sample_env (fun _ => None) (JStr "[a], {b}")).
  right. exists "[a], {b}". split; [reflexivity|]. intros kv. discriminate.
Defined.

(* ===================================================================== *)
(** ** Column widths and partial writes of write_ml_result *)
(* ===================================================================== *)








(** Extra X4: [write_ml_result] is not atomic. When the DICTA_CALL_SUMMARY row
    is accepted but the churn score cannot be formatted, it returns False,
    yet the new DICTA row stays committed, and CONVERSATION_SUMMARY and
    CONVERSATION_CATEGORY are left as they were. *)
Theorem write_ml_result_partial_commit (E : Env) (now : Z) (st : service) (r : payload)
    (p : prepared)
    (Hp : prepare E r = Some p)
    (Hacc : accepts_dicta E (dicta_row_of (py_str E (call_id_of r)) now p) = true)
    (Hchurn : churn_score_of r = None) :
  snd (write_ml_result E now st r) = false /\
  In (dicta_row_of (py_str E (call_id_of r)) now p)
     (dicta_call_summary (oracle (fst (write_ml_result E now st r)))) /\
  conversation_summary (oracle (fst (write_ml_result E now st r))) = conversation_summary (oracle st) /\
  conversation_category (oracle (fst (write_ml_result E now st r))) = conversation_category (oracle st).
Proof.
  rewrite write_ml_result_unfold. simpl fst; simpl snd.
  unfold write_result_rows. rewrite Hp, Hacc. simpl negb. cbv iota.
  unfold summary_row_of. rewrite Hchurn. simpl.
  split; [reflexivity|]. split; [|split; reflexivity].
  apply in_or_app. right. now left.
Qed.

Lemma write_ml_result_partial_commit_witness :
  exists p, prepare sample_env text_churn_result = Some p /\
  snd (write_ml_result sample_env 5 empty_service text_churn_result) = false /\
  In (dicta_row_of "CALL002" 5 p)
     (dicta_call_summary (oracle (fst (write_ml_result sample_env 5 empty_service text_churn_result)))).
Proof.
  destruct (prepare sample_env text_churn_result) as [p|] eqn:Hp;
    [|exfalso; vm_compute in Hp; discriminate].
  exists p. split; [reflexivity|].
  destruct (write_ml_result_partial_commit sample_env 5 empty_service text_churn_result p Hp
              eq_refl eq_refl) as (H1 & H2 & _).
  split; [exact H1 | exact H2].
Defined.

(* ===================================================================== *)
(** ** Inbound results *)
(* ===================================================================== *)

Lemma receive_one_other (E : Env) (json_loads : string -> option json) (st : service)
    (m : inbound) :
  is_ml_result (in_msg m) = false -> receive_one E json_loads st m = (st, false).
Proof.
  intros H. unfold receive_one.
  destruct (sm_body (in_msg m)); [|reflexivity].
  destruct (json_loads s); [|reflexivity]. now rewrite H.
Qed.

(** Extra X5: the message loop of [receive_ml_results] and
    [flush_all_sqs_to_db] deletes and counts a message only when it carries
    the ML_PROCESSING_RESULT type, its body parses to a dict, the
    [write_ml_result] of that dict returned True (the state being the one
    that write left) and [delete_message] succeeded. A message of any other
    type is neither deleted nor counted, and it changes nothing. *)
Theorem receive_one_deletes_only_written (E : Env) (json_loads : string -> option json)
    (st : service) (m : inbound) :
  (forall st', receive_one E json_loads st m = (st', true) ->
     exists b kv, sm_body (in_msg m) = Some b /\ json_loads b = Some (JObj kv) /\
       is_ml_result (in_msg m) = true /\ write_ml_result E (in_now m) st kv = (st', true) /\
       in_delete_ok m = true) /\
  (is_ml_result (in_msg m) = false -> receive_one E json_loads st m = (st, false)).
Proof.
  split; [|apply receive_one_other].
  intros st'. unfold receive_one.
  destruct (sm_body (in_msg m)) as [b|]; [|discriminate].
  destruct (json_loads b) as [body|] eqn:Hb; [|discriminate].
  destruct (is_ml_result (in_msg m)) eqn:Hml; [|discriminate].
  destruct body as [| | | | | |kv]; try discriminate.
  destruct (write_ml_result E (in_now m) st kv) as [st1 ok] eqn:Hw.
  intros H; injection H as <- Hok.
  apply andb_true_iff in Hok as [Hok _]. apply andb_true_iff in Hok as [Hok Hdel].
  subst ok. exists b, kv. auto.
Qed.

Lemma receive_loop_fold (E : Env) (json_loads : string -> option json) (msgs : list inbound) :
  forall st n st' n',
  fold_left (receive_loop E json_loads) msgs (st, n) = (st', n') ->
  (n <= n' <= n + length (List.filter (fun m => is_ml_result (in_msg m)) msgs))%nat /\
  (List.filter (fun m => is_ml_result (in_msg m)) msgs = [] -> st' = st).
Proof.
  induction msgs as [|m msgs IH]; intros st n st' n' H.
  - simpl in H. injection H as <- <-. simpl. split; [lia|auto].
  - change (fold_left (receive_loop E json_loads) msgs (receive_loop E json_loads (st, n) m)
            = (st', n')) in H.
    assert (Hstep : receive_loop E json_loads (st, n) m =
                    let '(s', d) := receive_one E json_loads st m in (s', if d then S n else n))
      by reflexivity.
    rewrite Hstep in H.
    destruct (is_ml_result (in_msg m)) eqn:Hml.
    + destruct (receive_one E json_loads st m) as [st1 d] eqn:Hr.
      apply IH in H as [Hn _]. simpl. rewrite Hml. simpl.
      split; [destruct d; lia|discriminate].
    + rewrite (receive_one_other E json_loads st m Hml) in H.
      apply IH in H as [Hn Hs]. simpl. rewrite Hml. split; [lia|exact Hs].
Qed.

(** Extra X6: a one-time [flush_all_sqs_to_db] counts in [total_processed] at
    most as many messages as the polled responses hold ML_PROCESSING_RESULT
    messages, and when none of them holds one it leaves the service state
    (database and pending source types) unchanged. *)
Theorem flush_all_sqs_to_db_once_bounded (E : Env) (json_loads : string -> option json)
    (responses : list (option (list inbound))) (st : service) :
  (snd (flush_all_sqs_to_db_once E json_loads responses st)
     <= fold_right (fun r acc => ml_messages r + acc) 0 responses)%nat /\
  (Forall (fun r => ml_messages r = 0%nat) responses ->
   fst (flush_all_sqs_to_db_once E json_loads responses st) = st).
Proof.
  unfold flush_all_sqs_to_db_once.
  assert (forall acc, (snd acc <= snd (flush_cycle E json_loads responses acc)
            <= snd acc + fold_right (fun r acc => ml_messages r + acc) 0 responses)%nat /\
          (Forall (fun r => ml_messages r = 0%nat) responses ->
           fst (flush_cycle E json_loads responses acc) = fst acc)) as Hgen.
  { induction responses as [|[msgs|] rest IH]; intros [s n]; simpl.
    - split; [lia|auto].
    - destruct msgs as [|m ms]; [simpl; split; [lia|auto]|].
      destruct (fold_left (receive_loop E json_loads) (m :: ms) (s, n)) as [s1 n1] eqn:Hf.
      destruct (receive_loop_fold E json_loads (m :: ms) s n s1 n1 Hf) as [Hn Hs].
      destruct (IH (s1, n1)) as [Hn' Hs']. simpl in Hn', Hs'.
      split; [lia|].
      intros Hall. inversion Hall as [|? ? H0 Hrest]; subst.
      rewrite Hs' by exact Hrest. apply Hs. unfold ml_messages in H0.
      apply length_zero_iff_nil. exact H0.
    - split; [lia|auto]. }
  destruct (Hgen (st, 0%nat)) as [H1 H2]. simpl in H1. split; [lia|exact H2].
Qed.

Lemma receive_one_deletes_only_written_witness :
  receive_one sample_env (fun _ => Some (JObj [])) empty_service
    (mkInbound (mkSqsMessage (Some "{}") (Some "CONVERSATION_ASSEMBLY") (Some "rh")) 1 true)
  = (empty_service, false).
Proof.
  exact (proj2 (receive_one_deletes_only_written sample_env (fun _ => Some (JObj [])) empty_service
                  (mkInbound (mkSqsMessage (Some "{}") (Some "CONVERSATION_ASSEMBLY") (Some "rh")) 1 true))
           eq_refl).
Defined.

Lemma flush_all_sqs_to_db_once_bounded_witness :
  fst (flush_all_sqs_to_db_once sample_env (fun _ => Some (JObj [])) 
         [Some [mkInbound (mkSqsMessage (Some "{}") None (Some "rh")) 1 true]] empty_service)
  = empty_service.
Proof.
  apply (proj2 (flush_all_sqs_to_db_once_bounded sample_env (fun _ => Some (JObj []))
                  [Some [mkInbound (mkSqsMessage (Some "{}") None (Some "rh")) 1 true]] empty_service)).
  repeat constructor.
Defined.

(* ===================================================================== *)
(** ** Batches *)
(* ===================================================================== *)







(* ===================================================================== *)
(** ** Dispatch bookkeeping of a batch *)
(* ===================================================================== *)

Lemma NoDup_snoc (l : list string) (x : string) :
  List.NoDup l -> ~ In x l -> List.NoDup (l ++ [x]).
Proof.
  intros Hl Hx. apply (Permutation.Permutation_NoDup (l := x :: l)).
  - apply Permutation.Permutation_cons_append.
  - now constructor.
Qed.

Lemma existsb_pc_call_id (id : string) (l : list processed_row) :
  existsb (fun x => String.eqb (pc_call_id x) id) l = true <-> In id (map pc_call_id l).
Proof.
  rewrite existsb_exists, in_map_iff. split.
  - intros (x & Hx & He). apply String.eqb_eq in He. now exists x.
  - intros (x & He & Hx). exists x. split; [exact Hx|]. now apply String.eqb_eq.
Qed.

(** The effect of one guarded insert into CDC_PROCESSED_CALLS. *)
Lemma processed_insert (ins : bool) (id mid : string) (d : db) :
  let d' := if existsb (fun x => String.eqb (pc_call_id x) id) (cdc_processed_calls d) then d
            else if ins then set_processed d (cdc_processed_calls d ++ [mkProcessedRow id mid])
            else d in
  (exists l, cdc_processed_calls d' = cdc_processed_calls d ++ l) /\
  (forall k, In k (processed_ids d') <-> In k (processed_ids d) \/ (ins = true /\ k = id)) /\
  (List.NoDup (processed_ids d) -> List.NoDup (processed_ids d')).
Proof.
  cbv zeta. unfold processed_ids.
  destruct (existsb _ _) eqn:He.
  - apply existsb_pc_call_id in He.
    split; [exists []; now rewrite app_nil_r|]. split; [|auto].
    intros k. split; [auto|]. intros [H|[_ ->]]; assumption.
  - assert (Hn : ~ In id (map pc_call_id (cdc_processed_calls d))).
    { intros Hin. apply existsb_pc_call_id in Hin. congruence. }
    destruct ins; simpl.
    + split; [eexists; reflexivity|]. rewrite map_app. simpl. split.
      * intros k. rewrite in_app_iff. simpl. split.
        -- intros [H|[H|[]]]; [now left | right; auto].
        -- intros [H|[_ ->]]; [now left | right; now left].
      * intros Hnd. now apply NoDup_snoc.
    + split; [exists []; now rewrite app_nil_r|]. split; [|auto].
      intros k. split; [auto|]. intros [H|[H _]]; [exact H|discriminate].
Qed.

Lemma assemble_for_source_call_id (now : Z) (id sid : string) (rows : list fragment)
    (c : conversation) :
  assemble_conversation_for_source now id sid rows = Some c -> cv_call_id c = id.
Proof.
  unfold assemble_conversation_for_source.
  destruct (source_of sid); [|discriminate]. destruct rows; [discriminate|].
  destruct (Nat.ltb _ _); [discriminate|]. destruct (negb _); [discriminate|].
  intros H. injection H as <-. reflexivity.
Qed.

(** One record of [process_batch_for_source]: its effect on the pending map
    and on CDC_PROCESSED_CALLS. *)
Lemma process_record_dispatch (E : Env) (sid mode : string) (src : table_source) (s : cdc_state)
    (b : batch_record) :
  source_of sid = Some src ->
  pending_source_types (cdc_service (process_record E sid mode s b)) =
    (if batch_dispatched sid b
     then <[br_record_id b := dest_source_type src]> (pending_source_types (cdc_service s))
     else pending_source_types (cdc_service s)) /\
  cdc_processed_calls (oracle (cdc_service (process_record E sid mode s b))) =
    cdc_processed_calls
      (if existsb (fun x => String.eqb (pc_call_id x) (br_record_id b))
                  (cdc_processed_calls (oracle (cdc_service s)))
       then oracle (cdc_service s)
       else if batch_dispatched sid b && mark_inserts (br_mark b)
       then set_processed (oracle (cdc_service s))
              (cdc_processed_calls (oracle (cdc_service s)) ++
               [mkProcessedRow (br_record_id b)
                  (match br_sent b with SendOk m => m | SendRaises _ => EmptyString end)])
       else oracle (cdc_service s)).
Proof.
  intros Hsrc. unfold process_record, batch_dispatched.
  destruct (assemble_conversation_for_source _ _ _ _) as [c|] eqn:Ha.
  2:{ split; [reflexivity|]. destruct (existsb _ _); reflexivity. }
  apply assemble_for_source_call_id in Ha.
  destruct (br_sent b) as [m|err]; unfold send_to_sqs_for_source.
  - rewrite Hsrc, Ha. simpl andb. unfold mark_call_processed_for_source.
    destruct (mark_raises (br_mark b)) as [e|].
    + simpl. split; [reflexivity|].
      rewrite (proj1 (log_error_rows _ _ _ _ _)). reflexivity.
    + destruct (truthy_str (Some m)); simpl; (split; [reflexivity|]); reflexivity.
  - simpl. split; [reflexivity|]. unfold log_error.
    destruct (br_log_ok b); destruct (existsb _ _); reflexivity.
Qed.

(** Extra X8: after [process_batch_for_source], the pending source type of a
    key is the source's destination type when some record of the batch with
    that id was assembled and sent; every other key keeps its entry. *)
Theorem process_batch_for_source_pending (E : Env) (records : list batch_record) (source_id : string)
    (src : table_source) (s s' : cdc_state)
    (Hsrc : source_of source_id = Some src)
    (Hrun : process_batch_for_source E records source_id s = Some s') (k : string) :
  pending_source_types (cdc_service s') !! k =
    if existsb (fun b => batch_dispatched source_id b && String.eqb (br_record_id b) k) records
    then Some (dest_source_type src)
    else pending_source_types (cdc_service s) !! k.
Proof.
  unfold process_batch_for_source in Hrun. rewrite Hsrc in Hrun.
  destruct (cdc_mode_key_of source_id) as [mode|]; [|discriminate].
  injection Hrun as <-. revert s.
  induction records as [|b records IH]; intros s; [reflexivity|].
  simpl. rewrite IH.
  destruct (process_record_dispatch E source_id mode src s b Hsrc) as [Hp _]. rewrite Hp.
  destruct (existsb _ records); [now rewrite orb_true_r|]. rewrite orb_false_r.
  destruct (batch_dispatched source_id b); simpl; [|reflexivity].
  destruct (String.eqb_spec (br_record_id b) k) as [->|Hne].
  - now rewrite lookup_insert_eq.
  - now rewrite lookup_insert_ne.
Qed.

(** Extra X9: [process_batch_for_source] only appends to CDC_PROCESSED_CALLS,
    keeps its CALL_IDs distinct when they were, and adds exactly the ids of
    the records that were assembled and sent and whose marking queries
    succeeded. *)
Theorem process_batch_for_source_processed (E : Env) (records : list batch_record) (source_id : string)
    (s s' : cdc_state)
    (Hrun : process_batch_for_source E records source_id s = Some s') :
  (exists l, cdc_processed_calls (oracle (cdc_service s')) =
             cdc_processed_calls (oracle (cdc_service s)) ++ l) /\
  (forall k, In k (processed_ids (oracle (cdc_service s'))) <->
     In k (processed_ids (oracle (cdc_service s))) \/
     exists b, In b records /\ batch_dispatched source_id b = true /\ mark_inserts (br_mark b) = true /\
               br_record_id b = k) /\
  (List.NoDup (processed_ids (oracle (cdc_service s))) ->
   List.NoDup (processed_ids (oracle (cdc_service s')))).
Proof.
  unfold process_batch_for_source in Hrun.
  destruct (source_of source_id) as [src|] eqn:Hsrc; [|discriminate].
  destruct (cdc_mode_key_of source_id) as [mode|]; [|discriminate].
  injection Hrun as <-. revert s.
  induction records as [|b records IH]; intros s.
  { simpl. split; [exists []; now rewrite app_nil_r|]. split; [|auto].
    intros k. split; [auto|]. intros [H|(b & [] & _)]. exact H. }
  simpl. destruct (IH (process_record E source_id mode s b)) as ([l Hl] & Hin & Hnd).
  destruct (process_record_dispatch E source_id mode src s b Hsrc) as [_ Hpc].
  destruct (processed_insert (batch_dispatched source_id b && mark_inserts (br_mark b)) (br_record_id b)
              (match br_sent b with SendOk m => m | SendRaises _ => EmptyString end)
              (oracle (cdc_service s))) as ([l0 Hl0] & Hin0 & Hnd0).
  cbv zeta in Hl0, Hin0, Hnd0. rewrite <- Hpc in Hl0.
  unfold processed_ids in Hin0, Hnd0. rewrite <- Hpc in Hin0, Hnd0.
  split; [|split].
  - exists (l0 ++ l). rewrite Hl, Hl0. now rewrite app_assoc.
  - intros k. rewrite Hin. unfold processed_ids at 1. rewrite Hin0. split.
    + intros [[H|[Hb ->]]|(b' & Hb' & H)].
      * now left.
      * apply andb_true_iff in Hb. right. exists b. split; [now left|]. tauto.
      * right. exists b'. split; [now right|]. exact H.
    + intros [H|(b' & [<-|Hb'] & Hd & Hm & Hk)].
      * left. now left.
      * left. right. split; [now rewrite Hd, Hm|]. now symmetry.
      * right. exists b'. auto.
  - intros H. apply Hnd. now apply Hnd0.
Qed.

Lemma process_batch_for_source_pending_witness :
  pending_source_types
    (cdc_service (fold_left (process_record sample_env "verint" "CDC_NORMAL_MODE") sample_batch cdc_state0))
    !! "CALL900" = Some "CALL".
Proof.
  destruct (source_of "verint") as [src|] eqn:Hsrc; [|discriminate].
  rewrite (process_batch_for_source_pending sample_env sample_batch "verint" src cdc_state0 _ Hsrc eq_refl).
  injection Hsrc as <-. vm_compute. reflexivity.
Defined.

Lemma process_batch_for_source_processed_witness :
  In "CALL900" (processed_ids (oracle (cdc_service
    (fold_left (process_record sample_env "verint" "CDC_NORMAL_MODE") sample_batch cdc_state0)))).
Proof.
  apply (proj1 (proj2 (process_batch_for_source_processed sample_env sample_batch "verint" cdc_state0 _
                         eq_refl)) "CALL900").
  right. exists (mkBatchRecord "CALL900" blank_fragments 1 (SendOk "m1") (MarkRuns true None) true true 2). split; [left; reflexivity|].
  split; [vm_compute; reflexivity|]. split; reflexivity.
Defined.

(* ===================================================================== *)
(** ** The single-source path against the VERINT source *)
(* ===================================================================== *)

Lemma assemble_conversation_verint_eq (now : Z) (call_id : string) (rows : list fragment) :
  assemble_conversation now call_id rows =
    option_map drop_source_id (assemble_conversation_for_source now call_id "verint" rows).
Proof.
  unfold assemble_conversation, assemble_conversation_for_source, subset_of.
  destruct (source_of "verint") as [src|] eqn:Hv; vm_compute in Hv; [|discriminate].
  injection Hv as <-. cbn [required_channels min_segments].
  destruct rows as [|f rows]; [reflexivity|].
  destruct (Nat.ltb _ _); [reflexivity|].
  remember (observed_channels (f :: rows)) as ch. cbn [forallb].
  destruct (existsb (String.eqb "A") ch); destruct (existsb (String.eqb "C") ch); reflexivity.
Qed.

(** Extra X10: on the same fetched rows, the single-source
    [assemble_conversation] builds the conversation that
    [assemble_conversation_for_source] builds for VERINT, without the
    sourceId field, and rejects the same rows. *)
Theorem assemble_conversation_is_verint (now : Z) (call_id : string) (rows : list fragment) :
  assemble_conversation now call_id rows =
    option_map drop_source_id (assemble_conversation_for_source now call_id "verint" rows).
Proof. apply assemble_conversation_verint_eq. Qed.



(* ===================================================================== *)
(** ** The backfill batch *)
(* ===================================================================== *)

Lemma backfill_step_effect (s : backfill_state) (c : backfill_call) :
  bf_total_processed (backfill_step s c) = S (bf_total_processed s) /\
  (bf_total_sent (backfill_step s c) + bf_total_skipped (backfill_step s c) +
   (if backfill_send_failed c then 1 else 0) = S (bf_total_sent s + bf_total_skipped s))%nat /\
  cdc_processed_calls (bf_db (backfill_step s c)) =
    cdc_processed_calls
      (if existsb (fun x => String.eqb (pc_call_id x) (bc_call_id c)) (cdc_processed_calls (bf_db s))
       then bf_db s
       else if bc_mark_ok c && negb (backfill_send_failed c)
       then set_processed (bf_db s)
              (cdc_processed_calls (bf_db s) ++ [mkProcessedRow (bc_call_id c) EmptyString])
       else bf_db s).
Proof.
  unfold backfill_step, backfill_send_failed, mark_processed.
  destruct (backfill_assemble_conversation _ _ _); [destruct (bc_send_ok c)|]; simpl;
    (split; [reflexivity|]); (split; [lia|]);
    destruct (bc_mark_ok c); simpl; destruct (existsb _ _); reflexivity.
Qed.

(** Extra X12: [BackfillService.process_batch] counts every call once in
    total_processed, and every call is counted once as sent, as skipped,
    or is a conversation whose send failed. *)
Theorem backfill_process_batch_counts (calls : list backfill_call) (s : backfill_state) :
  bf_total_processed (backfill_process_batch calls s) = (bf_total_processed s + length calls)%nat /\
  (bf_total_sent (backfill_process_batch calls s) + bf_total_skipped (backfill_process_batch calls s) +
   length (List.filter backfill_send_failed calls) =
   bf_total_sent s + bf_total_skipped s + length calls)%nat.
Proof.
  unfold backfill_process_batch. revert s.
  induction calls as [|c calls IH]; intros s; simpl; [lia|].
  destruct (IH (backfill_step s c)) as [H1 H2].
  destruct (backfill_step_effect s c) as (E1 & E2 & _).
  split; [lia|]. destruct (backfill_send_failed c); simpl; lia.
Qed.

(** Extra X13: [BackfillService.process_batch] only appends to
    CDC_PROCESSED_CALLS, keeps its CALL_IDs distinct when they were, and
    adds exactly the calls whose MERGE succeeded and that were either
    skipped or sent; a call whose send failed is not marked. *)
Theorem backfill_process_batch_processed (calls : list backfill_call) (s : backfill_state) :
  (exists l, cdc_processed_calls (bf_db (backfill_process_batch calls s)) =
             cdc_processed_calls (bf_db s) ++ l) /\
  (forall k, In k (processed_ids (bf_db (backfill_process_batch calls s))) <->
     In k (processed_ids (bf_db s)) \/
     exists c, In c calls /\ bc_mark_ok c = true /\ backfill_send_failed c = false /\
               bc_call_id c = k) /\
  (List.NoDup (processed_ids (bf_db s)) ->
   List.NoDup (processed_ids (bf_db (backfill_process_batch calls s)))).
Proof.
  unfold backfill_process_batch. revert s.
  induction calls as [|c calls IH]; intros s.
  { simpl. split; [exists []; now rewrite app_nil_r|]. split; [|auto].
    intros k. split; [auto|]. intros [H|(c & [] & _)]. exact H. }
  simpl. destruct (IH (backfill_step s c)) as ([l Hl] & Hin & Hnd).
  destruct (backfill_step_effect s c) as (_ & _ & Hpc).
  destruct (processed_insert (bc_mark_ok c && negb (backfill_send_failed c)) (bc_call_id c)
              EmptyString (bf_db s)) as ([l0 Hl0] & Hin0 & Hnd0).
  cbv zeta in Hl0, Hin0, Hnd0. rewrite <- Hpc in Hl0.
  unfold processed_ids in Hin0, Hnd0. rewrite <- Hpc in Hin0, Hnd0.
  split; [|split].
  - exists (l0 ++ l). rewrite Hl, Hl0. now rewrite app_assoc.
  - intros k. rewrite Hin. unfold processed_ids at 1. rewrite Hin0. split.
    + intros [[H|[Hb ->]]|(c' & Hc' & H)].
      * now left.
      * apply andb_true_iff in Hb. destruct Hb as [Hm Hf]. apply negb_true_iff in Hf.
        right. exists c. split; [now left|]. auto.
      * right. exists c'. split; [now right|]. exact H.
    + intros [H|(c' & [<-|Hc'] & Hm & Hf & Hk)].
      * left. now left.
      * left. right. split; [now rewrite Hm, Hf|]. now symmetry.
      * right. exists c'. auto.
  - intros H. apply Hnd. now apply Hnd0.
Qed.

(* ===================================================================== *)
(** ** Alert configurations *)
(* ===================================================================== *)

Lemma find_none_forall {A} (f : A -> bool) (l : list A) :
  find f l = None <-> Forall (fun x => f x = false) l.
Proof.
  induction l as [|a l IH]; simpl.
  - split; auto.
  - destruct (f a) eqn:Hf; split.
    + discriminate.
    + intros H. inversion H; congruence.
    + intros H. constructor; [exact Hf|]. now apply IH.
    + intros H. inversion H; subst. now apply IH.
Qed.

(** Extra X14: [create_configuration] answers 400 exactly when one of
    alert_name, metric_source, metric_name, condition_operator and
    threshold_value is absent from the body, naming the first absent one in
    that order, and then writes nothing. A required key that is present,
    even with a null value, passes the check. *)
Theorem create_configuration_required (new_id : string) (en : option Z) (data : payload)
    (db_ok : bool) (t : list alert_config_row) :
  (resp_code (snd (create_configuration new_id en data db_ok t)) = 400%nat <->
   exists f, In f CONFIG_REQUIRED /\ dget data f = None) /\
  (forall f, first_missing data CONFIG_REQUIRED = Some f ->
     dget data f = None /\
     create_configuration new_id en data db_ok t =
       (t, resp_error 400 ("Missing required field: " +:+ f))) /\
  (first_missing data CONFIG_REQUIRED = None -> db_ok = true ->
     create_configuration new_id en data db_ok t =
       (t ++ [config_row_of new_id en data],
        mkResponse 200 (JObj [("success", JBool true);
                              ("message", JStr "Alert configuration created")]))).
Proof.
  unfold create_configuration.
  split; [|split].
  - destruct (first_missing data CONFIG_REQUIRED) as [f|] eqn:Hm; simpl.
    + split; [intros _|reflexivity].
      unfold first_missing in Hm. apply find_some in Hm. destruct Hm as [Hin Hf].
      exists f. split; [exact Hin|]. destruct (dget data f); [discriminate|reflexivity].
    + unfold first_missing in Hm. apply find_none_forall in Hm.
      split.
      * destruct db_ok; simpl; discriminate.
      * intros (f & Hin & Hf). rewrite List.Forall_forall in Hm.
        specialize (Hm f Hin). simpl in Hm. rewrite Hf in Hm. discriminate.
  - intros f Hm. rewrite Hm. split; [|reflexivity].
    unfold first_missing in Hm. apply find_some in Hm. destruct Hm as [_ Hf].
    destruct (dget data f); [discriminate|reflexivity].
  - intros Hm Hok. now rewrite Hm, Hok.
Qed.

Lemma create_configuration_required_witness :
  resp_code (snd (create_configuration "A1" (Some 1)
                    [("alert_name", JStr "x"); ("metric_source", JNull)] true [])) = 400%nat.
Proof.
  apply (proj2 (proj1 (create_configuration_required "A1" (Some 1)
                         [("alert_name", JStr "x"); ("metric_source", JNull)] true []))).
  exists "metric_name". split; [simpl; tauto | reflexivity].
Defined.

Lemma toggle_flag_twice (e : option Z) : toggle_flag (toggle_flag e) = flag_01 e.
Proof. destruct e as [[|[p|p|]|p]|]; reflexivity. Qed.

Lemma toggle_flag_is_one (e : option Z) : flag_is_one (toggle_flag e) = negb (flag_is_one e).
Proof. destruct e as [[|[p|p|]|p]|]; reflexivity. Qed.

(** Extra X15: toggling a configuration twice leaves a flag of 1 at 1 and sets
    every other flag (0, NULL or any other number) to 0; rows of other ids
    are untouched. So two toggles restore a table whose flags are 0 or 1. *)
Theorem toggle_configuration_twice (alert_id : string) (t : list alert_config_row) :
  fst (toggle_configuration alert_id true (fst (toggle_configuration alert_id true t))) =
    map (fun r => if hextoraw_eqb (cfg_alert_id r) alert_id
                  then set_is_enabled r (flag_01 (cfg_is_enabled r)) else r) t /\
  (Forall (fun r => hextoraw_eqb (cfg_alert_id r) alert_id = true ->
                    cfg_is_enabled r = Some 0 \/ cfg_is_enabled r = Some 1) t ->
   fst (toggle_configuration alert_id true (fst (toggle_configuration alert_id true t))) = t).
Proof.
  assert (H : fst (toggle_configuration alert_id true (fst (toggle_configuration alert_id true t))) =
    map (fun r => if hextoraw_eqb (cfg_alert_id r) alert_id
                  then set_is_enabled r (flag_01 (cfg_is_enabled r)) else r) t).
  { simpl. rewrite map_map. apply map_ext. intros r.
    destruct (hextoraw_eqb (cfg_alert_id r) alert_id) eqn:He; simpl; rewrite ?He; [|reflexivity].
    rewrite toggle_flag_twice. destruct r; reflexivity. }
  split; [exact H|]. intros Hall. rewrite H. clear H.
  induction t as [|r t IH]; [reflexivity|]. inversion Hall as [|? ? Hr Hrest]; subst.
  simpl. rewrite (IH Hrest).
  destruct (hextoraw_eqb (cfg_alert_id r) alert_id) eqn:He; [|reflexivity].
  destruct (Hr eq_refl) as [E|E]; unfold flag_01; rewrite E; simpl;
    destruct r; simpl in *; subst; reflexivity.
Qed.

(** Extra X16: a successful toggle reports is_enabled true exactly when the
    first row with the id was not enabled (flag other than 1) before; for
    an id no row has, it still answers success, with is_enabled false,
    and changes nothing. *)
Theorem toggle_configuration_reply (alert_id : string) (t : list alert_config_row) :
  resp_code (snd (toggle_configuration alert_id true t)) = 200%nat /\
  resp_body (snd (toggle_configuration alert_id true t)) =
    (let on := match find (fun r => hextoraw_eqb (cfg_alert_id r) alert_id) t with
               | Some r => negb (flag_is_one (cfg_is_enabled r))
               | None => false
               end in
     JObj [("success", JBool true); ("is_enabled", JBool on);
           ("message", JStr (if on then "Alert enabled" else "Alert disabled"))]) /\
  (Forall (fun r => hextoraw_eqb (cfg_alert_id r) alert_id = false) t ->
   fst (toggle_configuration alert_id true t) = t).
Proof.
  split; [reflexivity|]. split.
  - assert (Hf : forall l,
      flag_is_one
        match find (fun r => hextoraw_eqb (cfg_alert_id r) alert_id)
                (map (fun r => if hextoraw_eqb (cfg_alert_id r) alert_id
                               then set_is_enabled r (toggle_flag (cfg_is_enabled r)) else r) l) with
        | Some r => cfg_is_enabled r | None => None end =
      match find (fun r => hextoraw_eqb (cfg_alert_id r) alert_id) l with
      | Some r => negb (flag_is_one (cfg_is_enabled r)) | None => false end).
    { induction l as [|r l IH]; [reflexivity|]. simpl.
      destruct (hextoraw_eqb (cfg_alert_id r) alert_id) eqn:He; simpl; rewrite ?He; [|exact IH].
      apply toggle_flag_is_one. }
    unfold toggle_configuration. cbn [snd resp_body]. cbv zeta. rewrite Hf. reflexivity.
  - intros Hall. simpl. induction t as [|r t IH]; [reflexivity|].
    inversion Hall as [|? ? Hr Hrest]; subst. simpl. rewrite Hr. now rewrite IH.
Qed.

(* ===================================================================== *)
(** ** Classification feedback *)
(* ===================================================================== *)

(** Extra X17: [api_ml_feedback] keeps ML_CLASSIFICATION_FEEDBACK well formed:
    every row it writes has a truthy CALL_ID, IS_CORRECT 0 or 1, and a NULL
    CORRECT_CATEGORY when IS_CORRECT is 1. A body without a truthy call_id
    gets 400 and writes nothing; otherwise at most one row is added. *)
Theorem api_ml_feedback_rows (data : payload) (db_ok : bool) (rows : list feedback_row)
    (Hrows : forallb feedback_row_ok rows = true) :
  forallb feedback_row_ok (fst (api_ml_feedback data db_ok rows)) = true /\
  (py_truthy (dget_or data "call_id" JNull) = false ->
   api_ml_feedback data db_ok rows = (rows, resp_error 400 "call_id is required")) /\
  (exists extra, fst (api_ml_feedback data db_ok rows) = rows ++ extra /\ (length extra <= 1)%nat).
Proof.
  unfold api_ml_feedback.
  destruct (py_truthy (dget_or data "call_id" JNull)) eqn:Hc; simpl.
  - destruct db_ok; simpl.
    + split; [|split; [discriminate|eexists; split; [reflexivity|simpl; lia]]].
      rewrite forallb_app, Hrows. simpl. unfold feedback_row_ok. simpl. rewrite Hc.
      destruct (py_truthy (dget_or data "is_correct" (JBool false))); reflexivity.
    + split; [exact Hrows|]. split; [discriminate|]. exists []. split; [now rewrite app_nil_r|simpl; lia].
  - split; [exact Hrows|]. split; [reflexivity|]. exists []. split; [now rewrite app_nil_r|simpl; lia].
Qed.

Lemma api_ml_feedback_rows_witness :
  forallb feedback_row_ok
    (fst (api_ml_feedback [("call_id", JStr "CALL001"); ("is_correct", JBool true);
                           ("correct_category", JStr "billing")] true [])) = true.
Proof.
  exact (proj1 (api_ml_feedback_rows [("call_id", JStr "CALL001"); ("is_correct", JBool true);
                                      ("correct_category", JStr "billing")] true [] eq_refl)).
Defined.

(* ===================================================================== *)
(** ** Alert history *)
(* ===================================================================== *)

(** Extra X18: acknowledging a history row twice is the same as acknowledging
    it once: the second call finds no ACTIVE row with that id, so the
    acknowledger and time of the first call stay. *)
Theorem acknowledge_alert_idempotent (now1 now2 : Z) (hid : nat) (by1 by2 : string)
    (hist : list alert_history) :
  acknowledge_alert now2 hid by2 (acknowledge_alert now1 hid by1 hist) =
    acknowledge_alert now1 hid by1 hist.
Proof.
  unfold acknowledge_alert. rewrite map_map. apply map_ext. intros h.
  destruct (Nat.eqb (h_history_id h) hid && alert_status_eqb (h_status h) ACTIVE) eqn:He;
    simpl; [now rewrite andb_false_r|now rewrite He].
Qed.

Lemma alert_step_resolved (hist : list alert_history) (op : alert_op) (i : nat)
    (h : alert_history) :
  nth_error hist i = Some h -> h_status h = RESOLVED ->
  nth_error (alert_step hist op) i = Some h.
Proof.
  intros Hi Hs. destruct op as [now inputs|now hid by_|now hid by_ notes]; simpl.
  - destruct (evaluate_all_alerts_appends now inputs hist) as (fresh & -> & _).
    rewrite nth_error_app1; [exact Hi|]. apply nth_error_Some. congruence.
  - unfold acknowledge_alert. rewrite nth_error_map, Hi. simpl. rewrite Hs.
    now rewrite andb_false_r.
  - unfold resolve_alert. rewrite nth_error_map, Hi. simpl. rewrite Hs.
    now rewrite andb_false_r.
Qed.

(** Extra X19: a RESOLVED row of ALERT_HISTORY is final: whatever sequence of
    evaluation runs, acknowledgements and resolutions follows, the row at
    its position stays exactly as it is. *)
Theorem alert_run_resolved_final (ops : list alert_op) (hist : list alert_history) (i : nat)
    (h : alert_history)
    (Hi : nth_error hist i = Some h) (Hs : h_status h = RESOLVED) :
  nth_error (alert_run hist ops) i = Some h.
Proof.
  unfold alert_run. revert hist Hi.
  induction ops as [|op ops IH]; intros hist Hi; simpl; [exact Hi|].
  apply IH. now apply alert_step_resolved.
Qed.

Lemma alert_run_resolved_final_witness :
  nth_error (alert_run [resolved_row] [OpAcknowledge 3 0 "bob"; OpResolve 4 0 "eve" "again"]) 0 =
    Some resolved_row.
Proof. exact (alert_run_resolved_final _ [resolved_row] 0 resolved_row eq_refl eq_refl). Defined.

(* ===================================================================== *)
(** ** Approval of recommendations *)
(* ===================================================================== *)

(** Extra X20: a recommendation is approved at most once. After an approval
    that answered 200, approving the same rec_id again answers 404 and
    changes nothing: the store is not rewritten a second time. *)
Theorem api_ml_approve_once (now now' : Z) (data data' : payload) (db_ok db_ok' : bool)
    (st st' : ml_state) (resp : http_response)
    (Hrun : api_ml_approve now data db_ok st = (st', resp))
    (H200 : resp_code resp = 200%nat)
    (Hid : dget_or data' "rec_id" JNull = dget_or data "rec_id" JNull) :
  api_ml_approve now' data' db_ok' st' =
    (st', resp_error 404 "Recommendation not found or already processed").
Proof.
  unfold api_ml_approve in Hrun |- *. rewrite Hid.
  destruct (py_truthy (dget_or data "rec_id" JNull)) eqn:Ht; simpl in Hrun |- *;
    [|injection Hrun as _ <-; discriminate].
  destruct (dget_or data "rec_id" JNull) as [| | | |id| |];
    try (injection Hrun as _ <-; discriminate).
  destruct (find _ (recommendations st)) as [r|] eqn:Hf; [|injection Hrun as _ <-; discriminate].
  destruct (if String.eqb (rec_type r) "churn_keywords" then _ else _) as [objs|];
    [|injection Hrun as _ <-; discriminate].
  destruct db_ok; [|injection Hrun as _ <-; discriminate].
  injection Hrun as <- _. simpl.
  assert (Hn : find (fun x => String.eqb (rec_id x) id && is_pending x)
                 (map (mark_approved now id (dget_or data "approver" (JStr "dashboard_user")))
                      (recommendations st)) = None).
  { apply find_none_forall. apply List.Forall_forall. intros x Hx.
    apply in_map_iff in Hx. destruct Hx as (y & <- & _). unfold mark_approved.
    destruct (String.eqb (rec_id y) id) eqn:He; simpl; [now rewrite He|now rewrite He]. }
  now rewrite Hn.
Qed.

Lemma api_ml_approve_once_witness :
  api_ml_approve 2 [("rec_id", JStr "R1")] true
    (fst (api_ml_approve 1 [("rec_id", JStr "R1")] true sample_ml_state)) =
  (fst (api_ml_approve 1 [("rec_id", JStr "R1")] true sample_ml_state),
   resp_error 404 "Recommendation not found or already processed").
Proof.
  apply (api_ml_approve_once 1 2 [("rec_id", JStr "R1")] [("rec_id", JStr "R1")] true true
           sample_ml_state _ (snd (api_ml_approve 1 [("rec_id", JStr "R1")] true sample_ml_state))).
  - apply surjective_pairing.
  - vm_compute. reflexivity.
  - reflexivity.
Defined.

Lemma assoc_last_map_set (k : string) (v : json) (kv : list (string * json)) :
  assoc_last k (map (fun p => if String.eqb p.1 k then (k, v) else p) kv) =
    option_map (fun _ => v) (assoc_last k kv).
Proof.
  induction kv as [|[k' x] kv IH]; [reflexivity|]. simpl. rewrite IH.
  destruct (String.eqb_spec k' k) as [->|Hne]; simpl;
    destruct (assoc_last k kv); simpl; try reflexivity.
  - now rewrite String.eqb_refl.
  - destruct (String.eqb_spec k k'); [congruence|reflexivity].
Qed.

Lemma assoc_last_map_set_ne (k k0 : string) (v : json) (kv : list (string * json)) :
  k0 <> k ->
  assoc_last k0 (map (fun p => if String.eqb p.1 k then (k, v) else p) kv) = assoc_last k0 kv.
Proof.
  intros Hne. induction kv as [|[k' x] kv IH]; [reflexivity|]. simpl. rewrite IH.
  destruct (String.eqb_spec k' k) as [->|Hk]; simpl;
    destruct (assoc_last k0 kv); try reflexivity.
  destruct (String.eqb_spec k0 k); [congruence|reflexivity].
Qed.

Lemma assoc_last_app_single (k k' : string) (v : json) (kv : list (string * json)) :
  assoc_last k (kv ++ [(k', v)]) = if String.eqb k k' then Some v else assoc_last k kv.
Proof.
  induction kv as [|[k1 x] kv IH]; simpl.
  - now destruct (String.eqb k k').
  - rewrite IH. destruct (String.eqb k k'); [reflexivity|]. reflexivity.
Qed.

(** [config[k] = v], then reading [config[k]] gives [v]; the other keys
    read as before. *)
Lemma assoc_last_obj_set (k k0 : string) (v : json) (kv : list (string * json)) :
  assoc_last k0 (obj_set k v kv) = if String.eqb k0 k then Some v else assoc_last k0 kv.
Proof.
  unfold obj_set. destruct (String.eqb_spec k0 k) as [->|Hne].
  - destruct (assoc_last k kv) eqn:Hk.
    + rewrite assoc_last_map_set, Hk. reflexivity.
    + now rewrite assoc_last_app_single, String.eqb_refl.
  - destruct (assoc_last k kv).
    + now apply assoc_last_map_set_ne.
    + rewrite assoc_last_app_single. apply String.eqb_neq in Hne. now rewrite Hne.
Qed.

Lemma assoc_last_obj_set_eq (k : string) (v : json) (kv : list (string * json)) :
  assoc_last k (obj_set k v kv) = Some v.
Proof. now rewrite assoc_last_obj_set, String.eqb_refl. Qed.

(** Extra X21: approving a churn_threshold recommendation writes
    recommended_value / 100 (40 / 100 when the recommendation has no
    recommended_value) as churn_detection.threshold of the classifications
    object, and leaves every other key of the object and of
    churn_detection as it was. When the object has no churn_detection key
    it is written back unchanged, so the threshold is not set at all. *)
Theorem set_churn_threshold_stored (dkv ckv : list (string * json)) (cfg' : json)
    (Hset : set_churn_threshold (JObj dkv) (JObj ckv) = Some cfg') :
  (assoc_last "churn_detection" ckv = None -> cfg' = JObj ckv) /\
  (forall cd, assoc_last "churn_detection" ckv = Some (JObj cd) ->
     exists q ckv' cd',
       py_num (dget_or dkv "recommended_value" (JInt 40)) = Some q /\
       cfg' = JObj ckv' /\
       assoc_last "churn_detection" ckv' = Some (JObj cd') /\
       assoc_last "threshold" cd' = Some (JFloat (q / 100)) /\
       (forall k, k <> "threshold" -> assoc_last k cd' = assoc_last k cd) /\
       (forall k, k <> "churn_detection" -> assoc_last k ckv' = assoc_last k ckv)).
Proof.
  unfold set_churn_threshold in Hset. split.
  - intros Hn. rewrite Hn in Hset. now injection Hset as <-.
  - intros cd Hcd. rewrite Hcd in Hset.
    unfold dget_or, dget.
    destruct (py_num (match assoc_last "recommended_value" dkv with Some v => v | None => JInt 40 end))
      as [q|] eqn:Hq; [|discriminate].
    injection Hset as <-.
    exists q, (obj_set "churn_detection" (JObj (obj_set "threshold" (JFloat (q / 100)) cd)) ckv),
      (obj_set "threshold" (JFloat (q / 100)) cd).
    split; [reflexivity|]. split; [reflexivity|].
    split; [apply assoc_last_obj_set_eq|]. split; [apply assoc_last_obj_set_eq|].
    split.
    + intros k Hk. rewrite assoc_last_obj_set. apply String.eqb_neq in Hk. now rewrite Hk.
    + intros k Hk. rewrite assoc_last_obj_set. apply String.eqb_neq in Hk. now rewrite Hk.
Qed.

Lemma set_churn_threshold_stored_witness :
  exists q ckv' cd',
    py_num (JInt 55) = Some q /\
    set_churn_threshold (JObj [("recommended_value", JInt 55)])
      (JObj [("churn_detection", JObj [("threshold", JFloat (4 # 10))])]) = Some (JObj ckv') /\
    assoc_last "churn_detection" ckv' = Some (JObj cd') /\
    assoc_last "threshold" cd' = Some (JFloat (q / 100)).
Proof.
  destruct (proj2 (set_churn_threshold_stored [("recommended_value", JInt 55)]
                     [("churn_detection", JObj [("threshold", JFloat (4 # 10))])] _ eq_refl)
              [("threshold", JFloat (4 # 10))] eq_refl)
    as (q & ckv' & cd' & Hq & Hc & H1 & H2 & _).
  exists q, ckv', cd'. split; [exact Hq|]. split; [rewrite <- Hc; reflexivity|]. auto.
Defined.

Lemma py_eqb_trans (a b c : json) :
  py_eqb a b = true -> py_eqb b c = true -> py_eqb a c = true.
Proof.
  intros Hab Hbc.
  destruct a, b; try discriminate; destruct c; try discriminate;
    simpl in *;
    repeat match goal with
           | H : String.eqb _ _ = true |- _ => apply String.eqb_eq in H; subst
           | H : Qeq_bool _ _ = true |- _ => apply Qeq_bool_iff in H
           end;
    try apply String.eqb_refl; try reflexivity;
    apply Qeq_bool_iff; eauto using Qeq_trans.
Qed.

Lemma py_eqb_refl (x : json) : py_unhashable x = false -> py_eqb x x = true.
Proof.
  destruct x; simpl; intros H; try discriminate; try reflexivity;
    try apply String.eqb_refl; apply Qeq_bool_iff; reflexivity.
Qed.

Lemma py_set_list_sub (seen l : list json) (y : json) :
  In y (py_set_list seen l) -> In y l.
Proof.
  revert seen. induction l as [|a l IH]; intros seen; simpl; [tauto|].
  destruct (existsb (py_eqb a) seen).
  - intros H. right. exact (IH _ H).
  - intros [->|H]; [now left|]. right. exact (IH _ H).
Qed.

Lemma py_set_list_cover (seen l : list json) (x : json) :
  In x l -> py_unhashable x = false ->
  existsb (py_eqb x) seen = true \/ exists y, In y (py_set_list seen l) /\ py_eqb x y = true.
Proof.
  intros Hx Hh. revert seen. induction l as [|a l IH]; intros seen; [destruct Hx|].
  simpl. destruct Hx as [->|Hx].
  - destruct (existsb (py_eqb x) seen) eqn:He; [now left|].
    right. exists x. split; [now left|]. now apply py_eqb_refl.
  - destruct (existsb (py_eqb a) seen) eqn:Ha.
    + exact (IH Hx seen).
    + destruct (IH Hx (a :: seen)) as [He|(y & Hy & Hxy)].
      * simpl in He. apply orb_true_iff in He. destruct He as [He|He]; [|now left].
        right. exists a. split; [now left|exact He].
      * right. exists y. split; [now right|exact Hxy].
Qed.

Lemma py_set_of_spec (v : json) (s : list json) :
  py_set_of v = Some s ->
  exists l, py_iter v = Some l /\ Forall (fun x => py_unhashable x = false) l /\
            s = py_set_list [] l.
Proof.
  unfold py_set_of. destruct (py_iter v) as [l|]; [|discriminate].
  destruct (existsb py_unhashable l) eqn:Hu; [discriminate|].
  intros H. injection H as <-. exists l. split; [reflexivity|]. split; [|reflexivity].
  apply List.Forall_forall. intros x Hx.
  destruct (py_unhashable x) eqn:Hx'; [|reflexivity].
  exfalso. assert (existsb py_unhashable l = true) by (apply existsb_exists; eauto). congruence.
Qed.

(** Extra X22: approving a churn_keywords recommendation replaces
    churn_keywords.medium of the keywords object by the union of the old
    medium keywords and the recommendation's keywords: every old or new
    keyword is in the new list (up to Python equality) and nothing else
    is. The other keys of churn_keywords and of the object are kept. *)
Theorem add_churn_keywords_union (dkv ckv : list (string * json)) (cfg' : json)
    (Hadd : add_churn_keywords (JObj dkv) (JObj ckv) = Some cfg') :
  exists ck old new medium ckv' ck',
    assoc_last "churn_keywords" ckv = Some (JObj ck) /\
    py_iter (dget_or ck "medium" (JArr [])) = Some old /\
    py_iter (dget_or dkv "keywords" (JArr [])) = Some new /\
    cfg' = JObj ckv' /\
    assoc_last "churn_keywords" ckv' = Some (JObj ck') /\
    assoc_last "medium" ck' = Some (JArr medium) /\
    (forall x, In x old \/ In x new -> exists y, In y medium /\ py_eqb x y = true) /\
    (forall y, In y medium -> In y old \/ In y new) /\
    (forall k, k <> "medium" -> assoc_last k ck' = assoc_last k ck) /\
    (forall k, k <> "churn_keywords" -> assoc_last k ckv' = assoc_last k ckv).
Proof.
  unfold add_churn_keywords in Hadd.
  destruct (assoc_last "churn_keywords" ckv) as [[| | | | | |ck]|] eqn:Hck;
    try discriminate;
    [|destruct (py_set_of (JArr [])); [destruct (py_set_of _)|]; discriminate].
  unfold dget_or, dget.
  destruct (py_set_of (match assoc_last "medium" ck with Some m => m | None => JArr [] end))
    as [exs|] eqn:Hex; [|discriminate].
  destruct (py_set_of (match assoc_last "keywords" dkv with Some k => k | None => JArr [] end))
    as [news|] eqn:Hnew; [|discriminate].
  injection Hadd as <-.
  apply py_set_of_spec in Hex. destruct Hex as (old & Hold & Hhold & ->).
  apply py_set_of_spec in Hnew. destruct Hnew as (new & Hnw & Hhnew & ->).
  set (medium := py_set_list [] (py_set_list [] old ++ py_set_list [] new)).
  exists ck, old, new, medium.
  exists (obj_set "churn_keywords" (JObj (obj_set "medium" (JArr medium) ck)) ckv),
         (obj_set "medium" (JArr medium) ck).
  split; [reflexivity|]. split; [exact Hold|]. split; [exact Hnw|]. split; [reflexivity|].
  split; [apply assoc_last_obj_set_eq|]. split; [apply assoc_last_obj_set_eq|].
  assert (Hall : forall x, In x (py_set_list [] old ++ py_set_list [] new) ->
                   py_unhashable x = false).
  { intros x Hx. apply in_app_iff in Hx.
    destruct Hx as [Hx|Hx]; apply py_set_list_sub in Hx;
      [exact (proj1 (List.Forall_forall _ _) Hhold x Hx)
      |exact (proj1 (List.Forall_forall _ _) Hhnew x Hx)]. }
  split; [|split; [|split]].
  - intros x Hx.
    assert (Hx1 : exists y, In y (py_set_list [] old ++ py_set_list [] new) /\ py_eqb x y = true).
    { destruct Hx as [Hx|Hx].
      - destruct (py_set_list_cover [] old x Hx
                    (proj1 (List.Forall_forall _ _) Hhold x Hx)) as [H|(y & Hy & Hxy)];
          [discriminate|].
        exists y. split; [apply in_app_iff; now left|exact Hxy].
      - destruct (py_set_list_cover [] new x Hx
                    (proj1 (List.Forall_forall _ _) Hhnew x Hx)) as [H|(y & Hy & Hxy)];
          [discriminate|].
        exists y. split; [apply in_app_iff; now right|exact Hxy]. }
    destruct Hx1 as (y & Hy & Hxy).
    destruct (py_set_list_cover [] _ y Hy (Hall y Hy)) as [H|(z & Hz & Hyz)]; [discriminate|].
    exists z. split; [exact Hz|]. exact (py_eqb_trans _ _ _ Hxy Hyz).
  - intros y Hy. apply py_set_list_sub, in_app_iff in Hy.
    destruct Hy as [Hy|Hy]; apply py_set_list_sub in Hy; auto.
  - intros k Hk. rewrite assoc_last_obj_set. apply String.eqb_neq in Hk. now rewrite Hk.
  - intros k Hk. rewrite assoc_last_obj_set. apply String.eqb_neq in Hk. now rewrite Hk.
Qed.

Lemma add_churn_keywords_union_witness :
  exists cfg', add_churn_keywords (JObj [("keywords", JArr [JStr "cancel"; JStr "leave"])])
                 (JObj [("churn_keywords", JObj [("medium", JArr [JStr "leave"])])]) = Some cfg' /\
  exists ck old new medium ckv' ck',
    assoc_last "churn_keywords" [("churn_keywords", JObj [("medium", JArr [JStr "leave"])])] =
      Some (JObj ck) /\
    py_iter (dget_or ck "medium" (JArr [])) = Some old /\
    py_iter (dget_or [("keywords", JArr [JStr "cancel"; JStr "leave"])] "keywords" (JArr [])) =
      Some new /\
    cfg' = JObj ckv' /\
    assoc_last "churn_keywords" ckv' = Some (JObj ck') /\
    assoc_last "medium" ck' = Some (JArr medium) /\
    (forall x, In x old \/ In x new -> exists y, In y medium /\ py_eqb x y = true) /\
    (forall y, In y medium -> In y old \/ In y new) /\
    (forall k, k <> "medium" -> assoc_last k ck' = assoc_last k ck) /\
    (forall k, k <> "churn_keywords" ->
       assoc_last k ckv' = assoc_last k [("churn_keywords", JObj [("medium", JArr [JStr "leave"])])]).
Proof.
  eexists. split; [reflexivity|].
  apply add_churn_keywords_union. reflexivity.
Defined.

(** Extra X23: [resolve_alert] records the resolver, the time and the notes
    on the rows with the id that are ACTIVE or ACKNOWLEDGED and keeps their
    acknowledgement columns; resolving a second time changes nothing. *)
Theorem resolve_alert_keeps_ack (now1 now2 : Z) (hid : nat) (by1 by2 notes1 notes2 : string)
    (hist : list alert_history) :
  resolve_alert now2 hid by2 notes2 (resolve_alert now1 hid by1 notes1 hist) =
    resolve_alert now1 hid by1 notes1 hist /\
  Forall2 (fun h h' =>
             h_acknowledged_by h' = h_acknowledged_by h /\
             h_acknowledged_at h' = h_acknowledged_at h /\
             h_history_id h' = h_history_id h /\
             (if Nat.eqb (h_history_id h) hid
                 && (alert_status_eqb (h_status h) ACTIVE
                     || alert_status_eqb (h_status h) ACKNOWLEDGED)
              then h_status h' = RESOLVED /\ h_resolved_by h' = Some by1 /\
                   h_resolved_at h' = Some now1 /\ h_resolution_notes h' = Some notes1
              else h' = h))
          hist (resolve_alert now1 hid by1 notes1 hist).
Proof.
  split.
  - unfold resolve_alert. rewrite map_map. apply map_ext. intros h.
    destruct (Nat.eqb (h_history_id h) hid
              && (alert_status_eqb (h_status h) ACTIVE
                  || alert_status_eqb (h_status h) ACKNOWLEDGED)) eqn:He;
      simpl; [now rewrite andb_false_r|now rewrite He].
  - unfold resolve_alert. induction hist as [|h hist IH]; simpl; constructor; [|exact IH].
    destruct (Nat.eqb (h_history_id h) hid
              && (alert_status_eqb (h_status h) ACTIVE
                  || alert_status_eqb (h_status h) ACKNOWLEDGED)); simpl; tauto.
Qed.

Lemma observed_channels_subset (rows : list fragment) :
  existsb (String.eqb "A") (observed_channels rows) &&
  existsb (String.eqb "C") (observed_channels rows) = true ->
  subset_of ["A"; "C"] (observed_channels rows) = true.
Proof.
  unfold subset_of. cbn [forallb]. intros H. apply andb_true_iff in H. destruct H as [HA HC].
  rewrite HA, HC. reflexivity.
Qed.

(** Extra X24: every conversation the backfill accepts, the CDC path
    accepts too for VERINT on the same rows, with the same call id, BAN,
    subscriber, call time and message count, the same message channels
    and timestamps, and message texts that strip to the backfill's texts. *)
Theorem backfill_assembly_accepted_by_cdc (now now' : Z) (call_id : string)
    (rows : list fragment) (c : conversation)
    (Hb : backfill_assemble_conversation now call_id rows = Some c) :
  exists c',
    assemble_conversation_for_source now' call_id "verint" rows = Some c' /\
    cv_call_id c' = cv_call_id c /\ cv_ban c' = cv_ban c /\
    cv_subscriber_no c' = cv_subscriber_no c /\ cv_call_time c' = cv_call_time c /\
    cv_message_count c' = cv_message_count c /\
    map msg_channel (cv_messages c') = map msg_channel (cv_messages c) /\
    map msg_timestamp (cv_messages c') = map msg_timestamp (cv_messages c) /\
    map (fun m => str_strip (msg_text m)) (cv_messages c') = map msg_text (cv_messages c).
Proof.
  unfold backfill_assemble_conversation in Hb.
  destruct (Nat.ltb (length rows) backfill_min_segments) eqn:Hlen; [discriminate|].
  destruct (existsb (String.eqb "A") (observed_channels rows) &&
            existsb (String.eqb "C") (observed_channels rows)) eqn:Hch; [|discriminate].
  simpl negb in Hb. cbv iota in Hb.
  remember (map _ (List.filter has_text rows)) as msgs eqn:Hms in Hb.
  destruct msgs as [|m ms]; [discriminate|].
  destruct rows as [|f rows]; [discriminate|].
  injection Hb as <-.
  assert (Hc : S (length ms) = length (List.filter has_text (f :: rows))).
  { change (S (length ms)) with (length (m :: ms)). rewrite Hms. apply length_map. }
  rewrite Hms, Hc.
  unfold assemble_conversation_for_source.
  destruct (source_of "verint") as [src|] eqn:Hv; vm_compute in Hv; [|discriminate].
  injection Hv as <-. cbn [required_channels min_segments].
  assert (Hl : Nat.ltb (length (f :: rows)) 11 = false).
  { apply Nat.ltb_ge. apply Nat.ltb_ge in Hlen. unfold backfill_min_segments in Hlen. lia. }
  rewrite Hl, observed_channels_subset by exact Hch. simpl negb. cbv iota.
  eexists. split; [reflexivity|]. cbn [cv_call_id cv_ban cv_subscriber_no cv_call_time
                                         cv_message_count cv_messages].
  rewrite !length_map, !map_map. repeat split; try reflexivity.
  apply map_ext. intros x. simpl. destruct (fr_text x); reflexivity.
Qed.

Lemma backfill_assembly_accepted_by_cdc_witness :
  exists c c',
    backfill_assemble_conversation 1 "CALL7" worded_fragments = Some c /\
    assemble_conversation_for_source 2 "CALL7" "verint" worded_fragments = Some c' /\
    cv_message_count c' = cv_message_count c.
Proof.
  destruct (backfill_assemble_conversation 1 "CALL7" worded_fragments) as [c|] eqn:Hb;
    [|vm_compute in Hb; discriminate].
  destruct (backfill_assembly_accepted_by_cdc 1 2 "CALL7" worded_fragments c Hb)
    as (c' & H1 & _ & _ & _ & _ & H2 & _).
  exists c, c'. auto.
Defined.
